(** * PCA notebook (ntolley/ds_examples, PCA.ipynb): data-preparation glue

    A shallow embedding of the notebook's own code: the catalog builder
    [create_facedb], the metadata reader [read_metadata], the pixel loader
    [get_pixel_data] and the flatten / reshape glue around the PCA calls.

    Python values are modelled as follows.
    - A [str] is a list of characters, a character being a Unicode code
      point.  The characters the regular-expression class [\d] accepts in
      a [str] pattern, those of Unicode category Nd, come from the
      interpreter's Unicode database: the class is a parameter of the
      development.
    - An exception is a value of [pyerr]; a computation that may raise
      returns a [result].
    - A numpy array is a row-major buffer together with its shape.
    - The file system, the image decoder and the float64 dot product are
      parameters of the development. *)

From Stdlib Require Import List Ascii String Arith Bool ZArith QArith Qabs Lia.
Import ListNotations.
Close Scope Q_scope.
Close Scope Z_scope.
Open Scope nat_scope.

(** ** Exceptions *)

Inductive pyerr : Type :=
| AttributeError
| IndexError
| KeyError
| NameError
| OSError
| TypeError
| ValueError.

Inductive result (A : Type) : Type :=
| Ok (a : A)
| Raise (e : pyerr).

Arguments Ok {A} a.
Arguments Raise {A} e.

Definition bind {A B : Type} (m : result A) (k : A -> result B) : result B :=
  match m with
  | Ok a => k a
  | Raise e => Raise e
  end.

Notation "x <- m ;; k" := (bind m (fun x => k))
  (at level 61, m at next level, right associativity).

Definition is_ok {A : Type} (m : result A) : bool :=
  match m with Ok _ => true | Raise _ => false end.

(** ** Strings *)

(** A character is a Unicode code point. *)
Definition char : Type := N.

(** The character of a one-byte literal *)
Definition ch (a : ascii) : char := N_of_ascii a.

Definition str : Type := list char.

Definition lit (s : string) : str := map ch (list_ascii_of_string s).

Definition str_eqb (a b : str) : bool :=
  if list_eq_dec N.eq_dec a b then true else false.

Module PyStr.

(** [s.startswith(p)] *)
Fixpoint startswith (p s : str) : bool :=
  match p, s with
  | [], _ => true
  | _ :: _, [] => false
  | a :: p', b :: s' => N.eqb a b && startswith p' s'
  end.

(** [s.endswith(p)] *)
Definition endswith (p s : str) : bool := startswith (rev p) (rev s).

(** [old in s] *)
Fixpoint contains (old s : str) : bool :=
  startswith old s ||
  match s with
  | [] => false
  | _ :: t => contains old t
  end.

(** [s.replace(old, new)] for a non-empty [old]: every occurrence, found
    from the left and without overlap.  [skip] counts the characters of
    an occurrence that are still to be dropped. *)
Fixpoint replace_from (old new : str) (skip : nat) (s : str) : str :=
  match s with
  | [] => []
  | c :: t =>
      match skip with
      | S k => replace_from old new k t
      | O =>
          if startswith old s
          then new ++ replace_from old new (List.length old - 1) t
          else c :: replace_from old new 0 t
      end
  end.

Definition replace (old new s : str) : str := replace_from old new 0 s.

Definition is_sep (c : char) : bool := N.eqb c (ch "/").

Fixpoint takewhile (f : char -> bool) (s : str) : str :=
  match s with
  | [] => []
  | c :: t => if f c then c :: takewhile f t else []
  end.

Fixpoint dropwhile (f : char -> bool) (s : str) : str :=
  match s with
  | [] => []
  | c :: t => if f c then dropwhile f t else s
  end.

(** [s.rpartition("/")], as (head, sep, tail); without a separator the
    whole string is the tail. *)
Definition rpartition_sep (s : str) : str * str * str :=
  let r := rev s in
  let tl := rev (takewhile (fun c => negb (is_sep c)) r) in
  match dropwhile (fun c => negb (is_sep c)) r with
  | [] => ([], [], tl)
  | _ :: h => (rev h, lit "/", tl)
  end.

(** [s.rstrip("/")] *)
Definition rstrip_sep (s : str) : str := rev (dropwhile is_sep (rev s)).

End PyStr.

(** ** Regular expression [_(\d{7})[_.]]

    Every item of the pattern consumes exactly one character, so the
    pattern is a list of character classes and a match at a position is a
    class-by-class comparison.  [re.search] takes the leftmost position.

    [isdecimal] is the class [\d] of a [str] pattern: the characters of
    Unicode category Nd, which are the ASCII digits and the decimal
    digits of the other scripts. *)

Module Regex.

Definition is_underscore (c : char) : bool := N.eqb c (ch "_").

Definition is_underscore_or_dot (c : char) : bool :=
  N.eqb c (ch "_") || N.eqb c (ch ".").

Definition faceid_pattern (isdecimal : char -> bool) : list (char -> bool) :=
  is_underscore :: repeat isdecimal 7 ++ [is_underscore_or_dot].

Fixpoint match_here (pat : list (char -> bool)) (s : str) : bool :=
  match pat, s with
  | [], _ => true
  | _ :: _, [] => false
  | p :: pat', c :: s' => p c && match_here pat' s'
  end.

(** First capture group of the leftmost match: the seven characters that
    follow the underscore. *)
Fixpoint search_faceid (isdecimal : char -> bool) (s : str) : option str :=
  if match_here (faceid_pattern isdecimal) s
  then Some (firstn 7 (tl s))
  else match s with
       | [] => None
       | _ :: t => search_faceid isdecimal t
       end.

End Regex.

(** ** File system and [glob.glob] *)

Record FileSystem : Type := {
  (** names of the entries of a directory, in enumeration order; empty when
      the directory cannot be listed *)
  fs_scandir : str -> list str;
  (** the directories a directory pattern with wildcard characters expands
      to *)
  fs_iglob_dirs : str -> list str
}.

Module Glob.

Definition magic_char (c : char) : bool :=
  N.eqb c (ch "*") || N.eqb c (ch "?") || N.eqb c (ch "[").

Definition has_magic (s : str) : bool := existsb magic_char s.

Definition ishidden (name : str) : bool :=
  match name with
  | c :: _ => N.eqb c (ch ".")
  | [] => false
  end.

(** [os.path.split] *)
Definition path_split (p : str) : str * str :=
  let '(h, sep, t) := PyStr.rpartition_sep p in
  let head := h ++ sep in
  if negb (str_eqb head []) && negb (forallb PyStr.is_sep head)
  then (PyStr.rstrip_sep head, t)
  else (head, t).

(** [os.path.join] of a directory and one name *)
Definition path_join (d name : str) : str :=
  if PyStr.startswith (lit "/") name then name
  else if str_eqb d [] || PyStr.endswith (lit "/") d then d ++ name
  else d ++ lit "/" ++ name.

(** [fnmatch.filter(names, "*.jpg")] *)
Definition fnmatch_star_jpg (name : str) : bool :=
  PyStr.endswith (lit ".jpg") name.

(** [_glob1(dirname, "*.jpg", False)] *)
Definition glob1_star_jpg (fs : FileSystem) (dirname : str) : list str :=
  filter fnmatch_star_jpg
    (filter (fun n => negb (ishidden n)) (fs_scandir fs dirname)).

(** [glob.glob(pathname)] for a pathname whose last component is
    ["*.jpg"], the only kind [create_facedb] builds.  Such a pathname
    always has a wildcard, and its last component is matched by
    [_glob1]. *)
Definition glob (fs : FileSystem) (pathname : str) : list str :=
  let '(dirname, _) := path_split pathname in
  if str_eqb dirname [] then glob1_star_jpg fs (lit ".")
  else
    let dirs :=
      if negb (str_eqb dirname pathname) && has_magic dirname
      then fs_iglob_dirs fs dirname
      else [dirname] in
    flat_map (fun d => map (path_join d) (glob1_star_jpg fs d)) dirs.

End Glob.

(** ** pandas: columns of strings *)

Module Pandas.

(** A cell of a string column: a string or the missing value. *)
Inductive cell : Type :=
| Str (s : str)
| NaN.

Inductive dtype : Type :=
| ObjectDtype
| Float64Dtype.

Record Series : Type := {
  s_dtype : dtype;
  s_values : list cell
}.

(** Columns in insertion order; the index is [0 .. nrows-1]. *)
Definition DataFrame : Type := list (string * Series).

(** A two-dimensional result of an expanding string method: [f_ncols]
    is the number of columns, zero when there is no row. *)
Record Frame : Type := {
  f_ncols : nat;
  f_rows : list (list cell)
}.

Definition object_series (l : list cell) : Series :=
  {| s_dtype := ObjectDtype; s_values := l |}.

(** The column built from a Python list of strings.  [empty_dtype] is
    the dtype of a column built from an empty list.  pandas makes it
    float64; the object case is carried along to show where the failure
    would move if such a column were typed like a column of strings. *)
Definition series_of_list (empty_dtype : dtype) (l : list str) : Series :=
  match l with
  | [] => {| s_dtype := empty_dtype; s_values := [] |}
  | _ :: _ => object_series (map Str l)
  end.

Definition nrows (db : DataFrame) : option nat :=
  match db with
  | [] => None
  | (_, s) :: _ => Some (List.length (s_values s))
  end.

Fixpoint assign (db : DataFrame) (key : string) (s : Series) : DataFrame :=
  match db with
  | [] => [(key, s)]
  | (k, old) :: rest =>
      if String.eqb k key then (k, s) :: rest
      else (k, old) :: assign rest key s
  end.

(** [db[key] = s]: the first column fixes the index, a later one must be
    as long as the index. *)
Definition setitem (db : DataFrame) (key : string) (s : Series)
  : result DataFrame :=
  match nrows db with
  | None => Ok (assign db key s)
  | Some n =>
      if Nat.eqb n (List.length (s_values s)) then Ok (assign db key s)
      else Raise ValueError
  end.

(** [db[key]] *)
Fixpoint getitem (db : DataFrame) (key : string) : result Series :=
  match db with
  | [] => Raise KeyError
  | (k, s) :: rest => if String.eqb k key then Ok s else getitem rest key
  end.

(** The [.str] accessor: refused on a column that is not of strings. *)
Definition str_accessor (s : Series) : result (list cell) :=
  match s_dtype s with
  | ObjectDtype => Ok (s_values s)
  | Float64Dtype => Raise AttributeError
  end.

Definition rpartition_cell (c : cell) : list cell :=
  match c with
  | Str x => let '(h, sep, t) := PyStr.rpartition_sep x in [Str h; Str sep; Str t]
  | NaN => [NaN]
  end.

Definition widen (w : nat) (row : list cell) : list cell :=
  match row with
  | [] => []
  | NaN :: _ => repeat NaN w
  | Str _ :: _ => row
  end.

(** [s.str.rpartition("/")] with its default [expand=True] *)
Definition str_rpartition (s : Series) : result Frame :=
  vals <- str_accessor s ;;
  let rows := map rpartition_cell vals in
  let w := fold_right Nat.max 0 (map (@List.length cell) rows) in
  Ok {| f_ncols := w; f_rows := map (widen w) rows |}.

(** [frame.values[:, j]] *)
Definition values_column (f : Frame) (j : nat) : result (list cell) :=
  if j <? f_ncols f then Ok (map (fun row => nth j row NaN) (f_rows f))
  else Raise IndexError.

Definition extract_cell (isdecimal : char -> bool) (c : cell) : cell :=
  match c with
  | Str x =>
      match Regex.search_faceid isdecimal x with
      | Some g => Str g
      | None => NaN
      end
  | NaN => NaN
  end.

(** [s.str.extract(r"_(\d{7})[_.]")]: one group, hence one column *)
Definition str_extract_faceid (isdecimal : char -> bool) (s : Series)
  : result Series :=
  vals <- str_accessor s ;;
  Ok (object_series (map (extract_cell isdecimal) vals)).

Definition replace_cell (old new : str) (c : cell) : cell :=
  match c with
  | Str x => Str (PyStr.replace old new x)
  | NaN => NaN
  end.

(** [s.str.replace(old, new, regex=False)] *)
Definition str_replace (s : Series) (old new : str) : result Series :=
  vals <- str_accessor s ;;
  Ok (object_series (map (replace_cell old new) vals)).

End Pandas.

(** ** The catalog builder *)

Section Catalog.

Import Pandas.

Variable isdecimal : char -> bool.
Variable fs : FileSystem.
Variable empty_dtype : dtype.

Definition default_dir : str := lit "/srv/data/faces/generated.photos".

Definition create_facedb (dir : str) : result DataFrame :=
  let db : DataFrame := [] in
  let pattern := dir ++ lit "/*.jpg" in
  let face_photos := Glob.glob fs pattern in
  db <- setitem db "fullpath" (series_of_list empty_dtype face_photos) ;;
  fullpath <- getitem db "fullpath" ;;
  partitioned <- str_rpartition fullpath ;;
  names <- values_column partitioned 2 ;;
  db <- setitem db "filename" (object_series names) ;;
  filename <- getitem db "filename" ;;
  faceid <- str_extract_faceid isdecimal filename ;;
  db <- setitem db "faceid" faceid ;;
  fullpath <- getitem db "fullpath" ;;
  json_files <- str_replace fullpath (lit "/generated.photos/")
                  (lit "/generated.photos_metadata/") ;;
  json_files <- str_replace json_files (lit ".jpg") (lit ".json") ;;
  db <- setitem db "jsonfile" json_files ;;
  Ok db.

End Catalog.

(** [s[id]] on a column with the default index *)
Definition series_getitem (s : Pandas.Series) (id : Z) : result Pandas.cell :=
  if (0 <=? id)%Z && (id <? Z.of_nat (List.length (Pandas.s_values s)))%Z
  then Ok (nth (Z.to_nat id) (Pandas.s_values s) Pandas.NaN)
  else Raise KeyError.

(** [db[key][id]] *)
Definition df_at (db : Pandas.DataFrame) (key : string) (id : Z)
  : result Pandas.cell :=
  s <- Pandas.getitem db key ;;
  series_getitem s id.

(** ** numpy arrays *)

Record ndarray (A : Type) : Type := {
  shape : list nat;
  data : list A
}.

Arguments shape {A} _.
Arguments data {A} _.

Definition prod_shape (sh : list nat) : nat := fold_right Nat.mul 1 sh.

Definition size {A : Type} (a : ndarray A) : nat := prod_shape (shape a).

(** The buffer holds exactly the elements the shape announces. *)
Definition array_wf {A : Type} (a : ndarray A) : Prop :=
  List.length (data a) = size a.

(** [n] consecutive pieces of [k] elements *)
Fixpoint chunks {A : Type} (n k : nat) (l : list A) : list (list A) :=
  match n with
  | O => []
  | S n' => firstn k l :: chunks n' k (skipn k l)
  end.

(** Every [s]-th element, after skipping [skip] elements *)
Fixpoint every_from {A : Type} (s skip : nat) (l : list A) : list A :=
  match l with
  | [] => []
  | x :: t =>
      match skip with
      | O => x :: every_from s (s - 1) t
      | S k => every_from s k t
      end
  end.

(** The Python slice [l[::s]] *)
Definition slice_step {A : Type} (s : Z) (l : list A) : result (list A) :=
  if (s =? 0)%Z then Raise ValueError
  else if (0 <? s)%Z then Ok (every_from (Z.to_nat s) 0 l)
  else Ok (every_from (Z.to_nat (- s)) 0 (rev l)).

(** [ceil(n / s)] elements are left of [n] by a slice of step [s]. *)
Definition slice_len (s : Z) (n : nat) : nat :=
  (n + Z.to_nat (Z.abs s) - 1) / Z.to_nat (Z.abs s).

(** [a.reshape(new_shape)] with every dimension given *)
Definition reshape {A : Type} (a : ndarray A) (new_shape : list nat)
  : result (ndarray A) :=
  if size a =? prod_shape new_shape
  then Ok {| shape := new_shape; data := data a |}
  else Raise ValueError.

(** [a.reshape(n, -1)] *)
Definition reshape_rows {A : Type} (a : ndarray A) (n : nat)
  : result (ndarray A) :=
  if (n =? 0) || negb (size a mod n =? 0) then Raise ValueError
  else Ok {| shape := [n; size a / n]; data := data a |}.

(** [a[i]] for an index that is not negative *)
Definition index0 {A : Type} (a : ndarray A) (i : nat) : result (ndarray A) :=
  match shape a with
  | [] => Raise IndexError
  | n :: rest =>
      if i <? n
      then Ok {| shape := rest;
                 data := firstn (prod_shape rest)
                                (skipn (i * prod_shape rest) (data a)) |}
      else Raise IndexError
  end.

(** [a[i, j]] on a two-dimensional array *)
Definition get2 {A : Type} (a : ndarray A) (i j : nat) : option A :=
  match shape a with
  | [h; w] => if (i <? h) && (j <? w) then nth_error (data a) (i * w + j) else None
  | _ => None
  end.

(** A loop that builds a list and stops at the first exception *)
Fixpoint mapM {A B : Type} (f : A -> result B) (l : list A) : result (list B) :=
  match l with
  | [] => Ok []
  | x :: t =>
      y <- f x ;;
      ys <- mapM f t ;;
      Ok (y :: ys)
  end.

(** [a[::s, ::s]] *)
Definition slice2 {A : Type} (s : Z) (a : ndarray A) : result (ndarray A) :=
  match shape a with
  | [h; w] =>
      rows <- slice_step s (chunks h w (data a)) ;;
      rows <- mapM (slice_step s) rows ;;
      Ok {| shape := [slice_len s h; slice_len s w];
            data := List.concat rows |}
  | h :: w :: rest =>
      let blk := prod_shape rest in
      rows <- slice_step s (chunks h (w * blk) (data a)) ;;
      rows <- mapM (fun r => r' <- slice_step s (chunks w blk r) ;;
                             Ok (List.concat r')) rows ;;
      Ok {| shape := slice_len s h :: slice_len s w :: rest;
            data := List.concat rows |}
  | _ => Raise IndexError
  end.

(** [np.array(arrays)] for a list of arrays: an empty list gives an empty
    one-dimensional array, arrays of one shape are stacked along a new
    first axis, and arrays of different shapes are refused. *)
Definition shape_eqb (a b : list nat) : bool :=
  if list_eq_dec Nat.eq_dec a b then true else false.

Definition np_array_stack {A : Type} (l : list (ndarray A)) : result (ndarray A) :=
  match l with
  | [] => Ok {| shape := [0]; data := [] |}
  | a :: _ =>
      if forallb (fun b => shape_eqb (shape b) (shape a)) l
      then Ok {| shape := List.length l :: shape a;
                 data := List.concat (map data l) |}
      else Raise ValueError
  end.

(** ** Decoded images *)

(** A decoded image: its size, the number of bands of its mode, and the
    pixels [getdata] yields, row by row, each with one value per band. *)
Record Image : Type := {
  im_width : nat;
  im_height : nat;
  im_bands : nat;
  im_getdata : list (list Z)
}.

Definition image_wf (im : Image) : Prop :=
  1 <= im_bands im /\
  List.length (im_getdata im) = im_width im * im_height im /\
  Forall (fun px => List.length px = im_bands im) (im_getdata im).

(** [np.array(im.getdata())]: one axis for a single-band image, whose
    pixels are plain integers, and for an image without pixels; otherwise
    a row per pixel and a column per band. *)
Definition np_array_getdata (im : Image) : ndarray Z :=
  let n := List.length (im_getdata im) in
  if (im_bands im =? 1) || (n =? 0)
  then {| shape := [n]; data := List.concat (im_getdata im) |}
  else {| shape := [n; im_bands im]; data := List.concat (im_getdata im) |}.

(** ** The pixel loader *)

Section PixelLoader.

(** float64 values, and the sum of products [np.dot] computes for one
    row of integers against the weights *)
Variable float : Type.
Variable fdot : list Z -> list Q -> float.

(** the catalog the notebook built, and [Image.open] *)
Variable facedb : Pandas.DataFrame.
Variable image_open : str -> result Image.

(** [np.dot(a, w)] for a one-dimensional [w]: the products are summed
    over the last axis of [a], which must be as long as [w]; an [a]
    without axes scales [w]. *)
Definition np_dot (a : ndarray Z) (w : list Q) : result (ndarray float) :=
  match rev (shape a) with
  | [] =>
      Ok {| shape := [List.length w];
            data := map (fun q => fdot (data a) [q]) w |}
  | k :: front =>
      if k =? List.length w
      then Ok {| shape := rev front;
                 data := map (fun row => fdot row w)
                             (chunks (prod_shape front) k (data a)) |}
      else Raise ValueError
  end.

Definition downsample : Z := 5.

Definition rgb_weights : list Q :=
  [(2989 # 10000)%Q; (5870 # 10000)%Q; (1140 # 10000)%Q].

(** The body of the loop of [get_pixel_data] *)
Definition load_gray (id : Z) : result (ndarray float) :=
  c <- df_at facedb "fullpath" id ;;
  match c with
  | Pandas.NaN => Raise AttributeError
  | Pandas.Str path =>
      im <- image_open path ;;
      let im_data := np_array_getdata im in
      gray <- np_dot im_data rgb_weights ;;
      gray_image <- reshape gray [256; 256] ;;
      slice2 downsample gray_image
  end.

Definition get_pixel_data (face_ids : list Z) : result (ndarray float) :=
  data_list <- mapM load_gray face_ids ;;
  np_array_stack data_list.

End PixelLoader.

Arguments np_dot {float} fdot a w.
Arguments load_gray {float} fdot facedb image_open id.
Arguments get_pixel_data {float} fdot facedb image_open face_ids.

(** ** The metadata reader *)

(** A parsed JSON document *)
#[warnings="-register-all"]
Inductive json : Type :=
| JNull
| JBool (b : bool)
| JNum (text : str)
| JStr (s : str)
| JList (items : list json)
| JDict (members : list (str * json)).

(** [data[key]] for a string key *)
Definition subscript (data : json) (key : str) : result json :=
  match data with
  | JDict members =>
      match find (fun m => str_eqb (fst m) key) members with
      | Some m => Ok (snd m)
      | None => Raise KeyError
      end
  | _ => Raise TypeError
  end.

(** The names a code cell of the notebook binds at top level: the names
    its imports introduce, then the names it defines or assigns. *)
Definition notebook_cells : list (list string) :=
  [ ["np"; "plt"; "Axes3D"; "pd"; "sns"; "PCA"; "KMeans"; "glob"; "json";
     "Image"];
    ["create_facedb"; "read_metadata"; "facedb"];
    ["downsample"; "get_pixel_data"; "num_images"; "image_list";
     "image_shape"];
    [];
    ["image_flattened"];
    ["image_selection"; "n_components"; "pca"; "transformed";
     "reconstruction"];
    ["image_selection"; "fig"; "axs"; "idx"; "ax"; "pca"; "transformed";
     "reconstruction"];
    ["n_components"; "component_list"; "pca"; "transformed"; "fig"; "axs";
     "ax"; "idx"; "eigen_face"];
    ["n_components"; "weights"; "new_image"; "idx"];
    ["x"; "y"];
    ["cluster_predictions"];
    ["fig"; "axs_all"; "cluster_idx"; "axs"; "cluster_positions";
     "image_selection"; "image_idx"; "ax"];
    [] ]%string.

(** The names of Python's [builtins] module *)
Definition python_builtins : list string :=
  [ "ArithmeticError"; "AssertionError"; "AttributeError"; "BaseException";
    "BlockingIOError"; "BrokenPipeError"; "BufferError"; "BytesWarning";
    "ChildProcessError"; "ConnectionAbortedError"; "ConnectionError";
    "ConnectionRefusedError"; "ConnectionResetError"; "DeprecationWarning";
    "EOFError"; "Ellipsis"; "EnvironmentError"; "Exception"; "False";
    "FileExistsError"; "FileNotFoundError"; "FloatingPointError";
    "FutureWarning"; "GeneratorExit"; "IOError"; "ImportError";
    "ImportWarning"; "IndentationError"; "IndexError"; "InterruptedError";
    "IsADirectoryError"; "KeyError"; "KeyboardInterrupt"; "LookupError";
    "MemoryError"; "ModuleNotFoundError"; "NameError"; "None";
    "NotADirectoryError"; "NotImplemented"; "NotImplementedError"; "OSError";
    "OverflowError"; "PendingDeprecationWarning"; "PermissionError";
    "ProcessLookupError"; "RecursionError"; "ReferenceError";
    "ResourceWarning"; "RuntimeError"; "RuntimeWarning";
    "StopAsyncIteration"; "StopIteration"; "SyntaxError"; "SyntaxWarning";
    "SystemError"; "SystemExit"; "TabError"; "TimeoutError"; "True";
    "TypeError"; "UnboundLocalError"; "UnicodeDecodeError";
    "UnicodeEncodeError"; "UnicodeError"; "UnicodeTranslateError";
    "UnicodeWarning"; "UserWarning"; "ValueError"; "Warning";
    "ZeroDivisionError"; "__build_class__"; "__debug__"; "__doc__";
    "__import__"; "__loader__"; "__name__"; "__package__"; "__spec__";
    "abs"; "all"; "any"; "ascii"; "bin"; "bool"; "breakpoint"; "bytearray";
    "bytes"; "callable"; "chr"; "classmethod"; "compile"; "complex";
    "copyright"; "credits"; "delattr"; "dict"; "dir"; "divmod";
    "enumerate"; "eval"; "exec"; "exit"; "filter"; "float"; "format";
    "frozenset"; "getattr"; "globals"; "hasattr"; "hash";
    "help"; "hex"; "id"; "input"; "int"; "isinstance"; "issubclass"; "iter";
    "len"; "license"; "list"; "locals"; "map"; "max"; "memoryview"; "min";
    "next"; "object"; "oct"; "open"; "ord"; "pow"; "print"; "property";
    "quit"; "range"; "repr"; "reversed"; "round"; "set"; "setattr"; "slice";
    "sorted"; "staticmethod"; "str"; "sum"; "super"; "tuple"; "type"; "vars";
    "zip" ]%string.

(** The names the IPython kernel puts in the user namespace *)
Definition ipython_names : list string :=
  [ "In"; "Out"; "get_ipython"; "display"; "exit"; "quit"; "_"; "__"; "___";
    "_i"; "_ii"; "_iii"; "_ih"; "_oh"; "_dh"; "__builtin__"; "__builtins__";
    "__name__"; "__doc__"; "__package__"; "__loader__"; "__spec__" ]%string.

(** Every name a global lookup can find once all cells have run *)
Definition notebook_namespace : list string :=
  List.concat notebook_cells ++ ipython_names ++ python_builtins.

(** Looking a name up outside the local scope *)
Definition resolve_global (namespace : list string) (name : string)
  : result unit :=
  if existsb (String.eqb name) namespace then Ok tt else Raise NameError.

Section Metadata.

(** [open(path)] and the text read from it, [json.load], and
    [pprint.pformat] *)
Variable open_file : str -> result str.
Variable json_load : str -> result json.
Variable pformat : json -> str.

(** [namespace] holds the global and built-in names at the time of the
    call.  In the call [pprint.pformat(data["faceAttributes"])] the
    callee is evaluated before the argument.  The notebook never binds
    [pprint]; the one binding the embedding provides for is the module,
    as [import pprint] would bind it, whose [pformat] is the parameter
    of the same name. *)
Definition read_metadata (namespace : list string)
  (facedb : Pandas.DataFrame) (id : Z) : result str :=
  c <- df_at facedb "jsonfile" id ;;
  match c with
  | Pandas.NaN => Raise TypeError
  | Pandas.Str path =>
      f <- open_file path ;;
      data <- json_load f ;;
      _ <- resolve_global namespace "pprint" ;;
      attributes <- subscript data (lit "faceAttributes") ;;
      let attributeInfo := pformat attributes in
      Ok attributeInfo
  end.

End Metadata.

(** ** The cells that load and flatten the images *)

(** [range(n)] *)
Definition py_range (n : nat) : list Z := map Z.of_nat (seq 0 n).

Definition num_images : nat := 100.

(** The cells that set [image_list], [image_shape] and [image_flattened],
    for a value [n] of the global [num_images]:
    [image_list = get_pixel_data(range(n))],
    [image_shape = image_list.shape[1:]] and
    [image_flattened = image_list.reshape(n, -1)]. *)
Definition load_images {float : Type} (fdot : list Z -> list Q -> float)
  (facedb : Pandas.DataFrame) (image_open : str -> result Image) (n : nat)
  : result (ndarray float * list nat * ndarray float) :=
  image_list <- get_pixel_data fdot facedb image_open (py_range n) ;;
  let image_shape := tl (shape image_list) in
  image_flattened <- reshape_rows image_list n ;;
  Ok (image_list, image_shape, image_flattened).

(** * Vocabulary of the statements *)

(** No path separator in [s] *)
Definition no_sep (s : str) : bool :=
  forallb (fun c => negb (PyStr.is_sep c)) s.

(** ** What [str.replace] computes

    [occurs_at old a s]: [old] occurs in [s] right after the prefix [a].
    [replaced_all old new s r]: [r] is [s] with the occurrences of [old]
    replaced by [new], taken from the left and without overlap. *)

Definition occurs_at (old a s : str) : Prop := exists b, s = a ++ old ++ b.

Definition leftmost_at (old a s : str) : Prop :=
  occurs_at old a s /\
  forall a', occurs_at old a' s -> List.length a <= List.length a'.

Inductive replaced_all (old new : str) : str -> str -> Prop :=
| RA_none (s : str) :
    (forall a, ~ occurs_at old a s) -> replaced_all old new s s
| RA_step (a b r : str) :
    leftmost_at old a (a ++ old ++ b) ->
    replaced_all old new b r ->
    replaced_all old new (a ++ old ++ b) (a ++ new ++ r).

(** ** What the face-id pattern extracts

    [faceid_at isdecimal pre id s]: right after the prefix [pre], [s]
    continues with an underscore, the seven decimal digits [id], and an
    underscore or a dot. *)

Definition faceid_at (isdecimal : char -> bool) (pre id s : str) : Prop :=
  exists c post,
    s = pre ++ (ch "_") :: id ++ c :: post /\
    List.length id = 7 /\
    forallb isdecimal id = true /\
    (c = (ch "_") \/ c = (ch ".")).

(** The directory [glob] lists for the pattern [dir ++ "/*.jpg"]. *)
Definition glob_dirname (dir : str) : str :=
  fst (Glob.path_split (dir ++ lit "/*.jpg")).

(** A name matches ["*.jpg"] for [glob]: it ends in [".jpg"] and is not
    hidden, that is, does not begin with a dot. *)
Definition matches_star_jpg (n : str) : Prop :=
  (exists stem, n = stem ++ lit ".jpg") /\ ~ (exists t, n = (ch ".") :: t).


(** ** The catalog: what [create_facedb] returns *)

Definition segment_photos : str := lit "/generated.photos/".
Definition segment_metadata : str := lit "/generated.photos_metadata/".

(** The face id of a file name, as the specification words it: the
    digits of the leftmost place where the name has an underscore, seven
    digits and an underscore or dot; missing when there is no such
    place. *)
Definition faceid_of (isdecimal : char -> bool) (name : str)
  (c : Pandas.cell) : Prop :=
  match c with
  | Pandas.Str id =>
      exists pre, faceid_at isdecimal pre id name /\
        forall pre' id', faceid_at isdecimal pre' id' name ->
                         List.length pre <= List.length pre'
  | Pandas.NaN => forall pre id, ~ faceid_at isdecimal pre id name
  end.



Definition visible_jpg (n : str) : bool :=
  negb (Glob.ishidden n) && Glob.fnmatch_star_jpg n.

(** A photo directory with three well-named photos and other entries. *)
Definition fs_three : FileSystem :=
  {| fs_scandir := fun d =>
       if str_eqb d (lit "/srv/data/generated.photos")
       then [lit "a_0000001_b.jpg"; lit "notes.txt"; lit "c_0000002.jpg";
             lit ".hidden_0000009_.jpg"; lit "d_0000003_e.jpg"]
       else [];
     fs_iglob_dirs := fun _ => [] |}.


(** [ceil(m / s)] *)
Definition ceil_div (m s : nat) : nat := (m + s - 1) / s.

(** The array [a[::k, ::k]] of an [h x w] array [a], for a positive [k] *)
Definition sliced {A : Type} (k : nat) (h w : nat) (a : ndarray A) : ndarray A :=
  {| shape := [ceil_div h k; ceil_div w k];
     data := List.concat (map (every_from k 0)
                              (every_from k 0 (chunks h w (data a)))) |}.

(** An identifier the pixel loader can serve: it names a catalog row
    whose file decodes to a three-band image of 256 * 256 pixels. *)
Definition valid_id (facedb : Pandas.DataFrame) (image_open : str -> result Image)
  (id : Z) (im : Image) : Prop :=
  exists path,
    df_at facedb "fullpath" id = Ok (Pandas.Str path) /\
    image_open path = Ok im /\
    image_wf im /\
    im_bands im = 3 /\
    List.length (im_getdata im) = 256 * 256.

(** [g] is the downsampled gray grid of the image [im]: 52 x 52 entries,
    the entry [(r, c)] being the weighted sum of the pixel in row [5 r]
    and column [5 c] of the 256 x 256 image. *)
Definition gray_grid_of {float : Type} (fdot : list Z -> list Q -> float)
  (im : Image) (g : ndarray float) : Prop :=
  shape g = [52; 52] /\
  array_wf g /\
  forall r c, r < 52 -> c < 52 ->
    get2 g r c =
    option_map (fun px => fdot px rgb_weights)
               (nth_error (im_getdata im) (5 * r * 256 + 5 * c)) /\
    get2 g r c <> None.

(** The gray image of a decoded image of 256 * 256 pixels, before it is
    downsampled *)
Definition gray_image_of {float : Type} (fdot : list Z -> list Q -> float)
  (im : Image) : ndarray float :=
  {| shape := [256; 256];
     data := map (fun px => fdot px rgb_weights) (im_getdata im) |}.

(** An identifier whose file opens and decodes *)
Definition loadable_id (facedb : Pandas.DataFrame)
  (image_open : str -> result Image) (id : Z) : Prop :=
  exists path im,
    df_at facedb "fullpath" id = Ok (Pandas.Str path) /\
    image_open path = Ok im.

(** The catalog of a non-empty list of paths, column by column *)
Definition catalog_of (isdecimal : char -> bool) (paths : list str)
  : Pandas.DataFrame :=
  [ ("fullpath"%string, Pandas.object_series (map Pandas.Str paths));
    ("filename"%string,
     Pandas.object_series
       (map (fun p => Pandas.Str (snd (PyStr.rpartition_sep p))) paths));
    ("faceid"%string,
     Pandas.object_series
       (map (fun p => Pandas.extract_cell isdecimal
                        (Pandas.Str (snd (PyStr.rpartition_sep p)))) paths));
    ("jsonfile"%string,
     Pandas.object_series
       (map (fun p => Pandas.Str
                        (PyStr.replace (lit ".jpg") (lit ".json")
                           (PyStr.replace segment_photos segment_metadata p)))
            paths)) ].

(** [id] is a row label of a table of [n] rows *)
Definition in_range (n : nat) (id : Z) : Prop :=
  (0 <= id < Z.of_nat n)%Z.

(** The weighted sum of the channel values of a pixel, computed
    exactly *)
Definition weighted_sum (R G B : Z) : Q :=
  (inject_Z R * (2989 # 10000) + inject_Z G * (5870 # 10000)
   + inject_Z B * (1140 # 10000))%Q.

(** *** Sample inputs *)

(** A part of the class [\d]: the ASCII digits and the Arabic-Indic
    digits U+0660 .. U+0669 *)
Definition sample_decimal (c : char) : bool :=
  ((48 <=? c)%N && (c <=? 57)%N) || ((1632 <=? c)%N && (c <=? 1641)%N).

(** The exact weighted sum, a stand-in for the float64 one *)
Definition exact_dot (px : list Z) (w : list Q) : Q :=
  fold_right Qplus (0 # 1)%Q (map (fun p => Qmult (inject_Z (fst p)) (snd p)) (combine px w)).

(** A 256 x 256 RGB image of one colour *)
Definition sample_image : Image :=
  {| im_width := 256; im_height := 256; im_bands := 3;
     im_getdata := repeat [200; 100; 50]%Z (256 * 256) |}.

(** A 512 x 128 RGB image: the same number of pixels, another size *)
Definition wide_image : Image :=
  {| im_width := 512; im_height := 128; im_bands := 3;
     im_getdata := repeat [200; 100; 50]%Z (256 * 256) |}.

(** A 2 x 2 RGB image *)
Definition tiny_image : Image :=
  {| im_width := 2; im_height := 2; im_bands := 3;
     im_getdata := [[1; 2; 3]; [4; 5; 6]; [7; 8; 9]; [10; 11; 12]]%Z |}.

(** A catalog of three rows *)
Definition sample_facedb : Pandas.DataFrame :=
  [ ("fullpath"%string, Pandas.object_series
       [Pandas.Str (lit "/srv/data/generated.photos/a_0000001_b.jpg");
        Pandas.Str (lit "/srv/data/generated.photos/c_0000002.jpg");
        Pandas.Str (lit "/srv/data/generated.photos/d_0000003_e.jpg")]);
    ("filename"%string, Pandas.object_series
       [Pandas.Str (lit "a_0000001_b.jpg");
        Pandas.Str (lit "c_0000002.jpg");
        Pandas.Str (lit "d_0000003_e.jpg")]);
    ("faceid"%string, Pandas.object_series
       [Pandas.Str (lit "0000001");
        Pandas.Str (lit "0000002");
        Pandas.Str (lit "0000003")]);
    ("jsonfile"%string, Pandas.object_series
       [Pandas.Str (lit "/srv/data/generated.photos_metadata/a_0000001_b.json");
        Pandas.Str (lit "/srv/data/generated.photos_metadata/c_0000002.json");
        Pandas.Str (lit "/srv/data/generated.photos_metadata/d_0000003_e.json")]) ].

(** The first photo is a 256 x 256 image, the second a 512 x 128 one, the
    third a 2 x 2 one; nothing else opens. *)
Definition sample_open (path : str) : result Image :=
  if str_eqb path (lit "/srv/data/generated.photos/a_0000001_b.jpg")
  then Ok sample_image
  else if str_eqb path (lit "/srv/data/generated.photos/c_0000002.jpg")
  then Ok wide_image
  else if str_eqb path (lit "/srv/data/generated.photos/d_0000003_e.jpg")
  then Ok tiny_image
  else Raise OSError.

(** Every metadata file opens and holds one document. *)
Definition sample_open_file (path : str) : result str :=
  Ok (lit "{'faceAttributes': {'age': 30}}").

Definition sample_json_load (text : str) : result json :=
  Ok (JDict [(lit "faceAttributes", JDict [(lit "age", JNum (lit "30"))])]).

Definition sample_pformat (j : json) : str := lit "{'age': 30}".

(** The buffer of the downsampled gray grid of a decoded image *)
Definition grid_data {float : Type} (fdot : list Z -> list Q -> float)
  (im : Image) : list float :=
  data (sliced 5 256 256 (gray_image_of fdot im)).

(** A directory that is not a [generated.photos] directory *)
Definition fs_plain : FileSystem :=
  {| fs_scandir := fun d =>
       if str_eqb d (lit "/srv/photos")
       then [lit "p_0000007_q.jpg"]
       else [];
     fs_iglob_dirs := fun _ => [] |}.

(** A catalog of the first two photos of [sample_facedb] *)
Definition two_facedb : Pandas.DataFrame :=
  catalog_of sample_decimal
             [lit "/srv/data/generated.photos/a_0000001_b.jpg";
              lit "/srv/data/generated.photos/c_0000002.jpg"].

(** * Facts *)

(** ** Facts about the string operations *)

Section StringFacts.

Import PyStr.

Lemma startswith_iff (p s : str) :
  startswith p s = true <-> exists r, s = p ++ r.
Proof.
  revert s; induction p as [|a p IH]; intros s; simpl.
  - split; [intros _; now exists s | reflexivity].
  - destruct s as [|b s]; simpl.
    + split; [discriminate | intros [r Hr]; discriminate].
    + rewrite andb_true_iff, N.eqb_eq, IH. split.
      * intros [-> [r ->]]. now exists r.
      * intros [r Hr]. injection Hr as -> ->. split; [reflexivity | now exists r].
Qed.

Lemma endswith_iff (p s : str) :
  endswith p s = true <-> exists r, s = r ++ p.
Proof.
  unfold endswith. rewrite startswith_iff. split.
  - intros [r Hr]. exists (rev r).
    rewrite <- (rev_involutive s), Hr, rev_app_distr, rev_involutive.
    reflexivity.
  - intros [r ->]. exists (rev r). apply rev_app_distr.
Qed.

Lemma takewhile_app_stop (f : char -> bool) (a : str) (c : char) (b : str) :
  forallb f a = true -> f c = false ->
  takewhile f (a ++ c :: b) = a /\ dropwhile f (a ++ c :: b) = c :: b.
Proof.
  intros Ha Hc. induction a as [|x a IH]; simpl in *.
  - now rewrite Hc.
  - apply andb_true_iff in Ha as [Hx Ha]. rewrite Hx.
    destruct (IH Ha) as [-> ->]. now split.
Qed.


Lemma no_sep_rev (s : str) : no_sep (rev s) = no_sep s.
Proof.
  unfold no_sep. apply eq_true_iff_eq. rewrite !forallb_forall.
  split; intros H x Hx; apply H.
  - apply (proj1 (in_rev s x)), Hx.
  - apply (proj2 (in_rev s x)), Hx.
Qed.

(** The tail of [rpartition] is what follows the last separator. *)
Lemma rpartition_sep_app (h t : str) :
  no_sep t = true ->
  rpartition_sep (h ++ (ch "/") :: t) = (h, lit "/", t).
Proof.
  intros Ht. unfold rpartition_sep.
  replace (rev (h ++ (ch "/") :: t)) with (rev t ++ (ch "/") :: rev h).
  2:{ rewrite rev_app_distr. simpl. now rewrite <- app_assoc. }
  destruct (takewhile_app_stop (fun c => negb (is_sep c)) (rev t) (ch "/") (rev h))
    as [-> ->].
  - fold (no_sep (rev t)). now rewrite no_sep_rev.
  - reflexivity.
  - now rewrite !rev_involutive.
Qed.


End StringFacts.

Section ReplaceFacts.

Import PyStr.

Variables old new : str.
Hypothesis old_nonempty : old <> [].

Lemma replace_from_skip (x b : str) :
  replace_from old new (List.length x) (x ++ b) = replace_from old new 0 b.
Proof. induction x as [|c x IH]; simpl; [reflexivity | exact IH]. Qed.

Lemma contains_false_no_occ (s : str) :
  contains old s = false -> forall a, ~ occurs_at old a s.
Proof.
  induction s as [|c t IH]; intros H a [b Hb].
  - destruct a; [destruct old; [congruence | discriminate] | discriminate].
  - simpl in H. apply orb_false_iff in H as [Hs Ht].
    destruct a as [|c' a'].
    + assert (startswith old (c :: t) = true) as E
        by (apply startswith_iff; now exists b).
      congruence.
    + injection Hb as -> ->. apply (IH Ht a'). now exists b.
Qed.

Lemma replace_no_occ (s : str) :
  contains old s = false -> replace old new s = s.
Proof.
  unfold replace. induction s as [|c t IH]; intros H; [reflexivity|].
  simpl in H. apply orb_false_iff in H as [Hs Ht].
  cbn [replace_from]. rewrite Hs, (IH Ht). reflexivity.
Qed.

Lemma replace_first (s : str) :
  contains old s = true ->
  exists a b, s = a ++ old ++ b /\ leftmost_at old a s /\
              replace old new s = a ++ new ++ replace old new b.
Proof.
  unfold replace. induction s as [|c t IH]; intros H.
  - destruct old; [congruence | discriminate].
  - destruct (startswith old (c :: t)) eqn:Hs.
    + apply startswith_iff in Hs as [b Hb].
      exists [], b. split; [exact Hb|]. split.
      * split; [now exists b | intros; simpl; lia].
      * cbn [replace_from].
        assert (startswith old (c :: t) = true) as ->
          by (apply startswith_iff; now exists b).
        assert (exists o old', old = o :: old') as (o & old' & E)
          by (destruct old as [|o old']; [congruence | now exists o, old']).
        pose proof Hb as Hb'. rewrite E in Hb'. injection Hb' as _ Ht.
        replace (List.length old - 1) with (List.length old')
          by (rewrite E; simpl; lia).
        rewrite Ht. now rewrite replace_from_skip.
    + assert (contains old t = true) as Ht.
      { simpl in H. simpl in Hs. rewrite Hs in H. exact H. }
      destruct (IH Ht) as (a & b & -> & [Hocc Hleft] & Hr).
      exists (c :: a), b. split; [reflexivity|]. split.
      * split; [now exists b|]. intros a' [b' Hb'].
        destruct a' as [|c' a'].
        -- assert (startswith old (c :: a ++ old ++ b) = true) as E
             by (apply startswith_iff; now exists b').
           congruence.
        -- injection Hb' as -> Hb'. simpl.
           apply le_n_S, Hleft. now exists b'.
      * cbn [replace_from]. rewrite Hs, Hr. reflexivity.
Qed.

(** [replace] replaces every occurrence. *)
Lemma replace_replaced_all (s : str) :
  replaced_all old new s (replace old new s).
Proof.
  remember (List.length s) as n eqn:Hn.
  revert s Hn. induction n as [n IH] using lt_wf_ind. intros s ->.
  destruct (contains old s) eqn:Hc.
  - destruct (replace_first s Hc) as (a & b & -> & Hl & ->).
    apply RA_step; [exact Hl|].
    apply (IH (List.length b)); [|reflexivity].
    rewrite !length_app. destruct old; [congruence | simpl; lia].
  - rewrite (replace_no_occ s Hc). apply RA_none.
    now apply contains_false_no_occ.
Qed.

(** With a single occurrence, exactly that one is replaced. *)
Lemma replace_single (a b : str) :
  leftmost_at old a (a ++ old ++ b) -> contains old b = false ->
  replace old new (a ++ old ++ b) = a ++ new ++ b.
Proof.
  intros [_ Hleft] Hb.
  destruct (contains old (a ++ old ++ b)) eqn:Hc.
  - destruct (replace_first _ Hc) as (a' & b' & E & [Ho' Hl'] & ->).
    assert (List.length a' = List.length a) as Hlen.
    { apply Nat.le_antisymm.
      - apply Hl'. now exists b.
      - apply Hleft. rewrite E. now exists b'. }
    assert (a' = a /\ old ++ b' = old ++ b) as [-> E'].
    { clear - E Hlen. revert a E Hlen.
      induction a' as [|x a' IH]; intros [|y a] E Hlen; try discriminate.
      - now split.
      - simpl in E. injection E as <- E. injection Hlen as Hlen.
        destruct (IH a E Hlen) as [-> E'].
        split; [reflexivity | now rewrite E']. }
    apply app_inv_head in E'. subst b'.
    now rewrite (replace_no_occ b Hb).
  - exfalso. apply (contains_false_no_occ _ Hc a). now exists b.
Qed.

Lemma app_split_length (a a' x x' : str) :
  a ++ x = a' ++ x' -> List.length a = List.length a' -> a = a' /\ x = x'.
Proof.
  revert a'. induction a as [|c a IH]; intros [|c' a'] E Hlen;
    try discriminate.
  - now split.
  - simpl in E. injection E as -> E. injection Hlen as Hlen.
    destruct (IH a' E Hlen) as [-> ->]. now split.
Qed.

(** The relation [replaced_all] determines the result. *)
Lemma replaced_all_unique (s r r' : str) :
  replaced_all old new s r -> replaced_all old new s r' -> r = r'.
Proof.
  intros H. revert r'.
  induction H as [s Hno | a b r [Hocc Hleft] Hb IH]; intros r' H'.
  - inversion H' as [s' Hno' | a' b' r0 [Hocc' Hleft'] Hb' E]; subst;
      [reflexivity|].
    exfalso. apply (Hno a'). now exists b'.
  - inversion H' as [s' Hno' | a' b' r0 [Hocc' Hleft'] Hb' E]; subst.
    + exfalso. apply (Hno' a). now exists b.
    + assert (List.length a' = List.length a) as Hlen.
      { apply Nat.le_antisymm.
        - apply Hleft'. rewrite E. now exists b.
        - apply Hleft. rewrite <- E. now exists b'. }
      destruct (app_split_length a' a (old ++ b') (old ++ b) E Hlen) as [-> E'].
      apply app_inv_head in E'. subst b'.
      now rewrite (IH r0 Hb').
Qed.

End ReplaceFacts.

Section RegexFacts.

Import Regex.

Variable isdecimal : char -> bool.

Lemma match_here_faceid (s : str) :
  match_here (faceid_pattern isdecimal) s = true <-> faceid_at isdecimal [] (firstn 7 (tl s)) s.
Proof.
  split.
  - intros H. unfold faceid_pattern in H. cbn [repeat app] in H.
    do 9 (destruct s as [|? s]; [cbn in H; try discriminate H;
                                 repeat (apply andb_true_iff in H as [_ H]);
                                 discriminate H|]).
    cbn in H. repeat (apply andb_true_iff in H as [? H]).
    match goal with
    | E : is_underscore_or_dot ?x = true |- _ => exists x, s
    end.
    cbn. repeat split.
    + match goal with
      | E : is_underscore _ = true |- _ =>
          apply N.eqb_eq in E; now rewrite E
      end.
    + repeat match goal with
             | E : isdecimal _ = true |- _ => rewrite E; clear E
             end.
      reflexivity.
    + match goal with
      | E : is_underscore_or_dot _ = true |- _ =>
          apply orb_true_iff in E as [E|E]; apply N.eqb_eq in E; auto
      end.
  - intros (c & post & E & Hlen & Hdig & Hc).
    set (id := firstn 7 (tl s)) in *. clearbody id. subst s.
    do 7 (destruct id as [|? id]; [discriminate Hlen|]).
    destruct id; [|discriminate Hlen].
    cbn in Hdig |- *.
    repeat (apply andb_true_iff in Hdig as [? Hdig]).
    repeat match goal with
           | E : isdecimal _ = true |- _ => rewrite E; clear E
           end.
    destruct Hc as [-> | ->]; reflexivity.
Qed.

Lemma faceid_at_nil_firstn (id s : str) :
  faceid_at isdecimal [] id s -> firstn 7 (tl s) = id.
Proof.
  intros (c & post & E & Hlen & _). subst s. cbn [app tl].
  rewrite firstn_app, (firstn_all2 (n := 7) id) by lia.
  rewrite Hlen, Nat.sub_diag. apply app_nil_r.
Qed.

Lemma faceid_at_nil_unique (id id' s : str) :
  faceid_at isdecimal [] id s -> faceid_at isdecimal [] id' s -> id = id'.
Proof.
  intros (c & post & E & Hlen & _) (c' & post' & E' & Hlen' & _).
  rewrite E in E'. simpl in E'. injection E' as E'.
  clear E. revert id' Hlen' E'.
  do 7 (destruct id as [|? id]; [discriminate Hlen|]).
  destruct id; [|discriminate Hlen]. intros id' Hlen' E'.
  do 7 (destruct id' as [|? id']; [discriminate Hlen'|]).
  destruct id'; [|discriminate Hlen'].
  simpl in E'. now inversion E'.
Qed.

Lemma faceid_at_cons (x : char) (pre id s : str) :
  faceid_at isdecimal (x :: pre) id (x :: s) <-> faceid_at isdecimal pre id s.
Proof.
  split; intros (c & post & E & H); exists c, post; split; try exact H.
  - simpl in E. now injection E.
  - simpl. now rewrite E.
Qed.

(** [search_faceid] returns the digits of the leftmost match, and
    nothing when there is no match. *)
Lemma search_faceid_spec (s : str) :
  match search_faceid isdecimal s with
  | Some id =>
      exists pre, faceid_at isdecimal pre id s /\
        forall pre' id', faceid_at isdecimal pre' id' s ->
                         List.length pre <= List.length pre'
  | None => forall pre id, ~ faceid_at isdecimal pre id s
  end.
Proof.
  induction s as [|x s IH].
  - simpl. intros pre id (c & post & E & _).
    destruct pre; discriminate.
  - cbn [search_faceid].
    destruct (match_here (faceid_pattern isdecimal) (x :: s)) eqn:Hm.
    + apply match_here_faceid in Hm. exists []. split; [exact Hm|].
      intros; simpl; lia.
    + assert (forall id, ~ faceid_at isdecimal [] id (x :: s)) as Hno.
      { intros id Hid.
        assert (match_here (faceid_pattern isdecimal) (x :: s) = true) as E; [|congruence].
        apply match_here_faceid.
        now rewrite (faceid_at_nil_firstn id (x :: s) Hid). }
      destruct (search_faceid isdecimal s) as [id|].
      * destruct IH as (pre & Hat & Hleft).
        exists (x :: pre). split; [now apply faceid_at_cons|].
        intros pre' id' H'. destruct pre' as [|y pre'].
        -- exfalso. exact (Hno id' H').
        -- assert (y = x) as ->.
           { destruct H' as (c & post & E & _). simpl in E. now injection E. }
           apply faceid_at_cons in H'. simpl. apply le_n_S.
           exact (Hleft pre' id' H').
      * intros pre id H'. destruct pre as [|y pre].
        -- exact (Hno id H').
        -- assert (y = x) as ->.
           { destruct H' as (c & post & E & _). simpl in E. now injection E. }
           apply faceid_at_cons in H'. exact (IH pre id H').
Qed.

End RegexFacts.

Section GlobFacts.

Import PyStr Glob.

Lemma str_eqb_eq (a b : str) : str_eqb a b = true <-> a = b.
Proof.
  unfold str_eqb. destruct (list_eq_dec N.eq_dec a b); split; intros;
    congruence.
Qed.

Lemma dropwhile_nil (f : char -> bool) (s : str) :
  dropwhile f s = [] -> forallb f s = true.
Proof.
  induction s as [|c s IH]; simpl; [reflexivity|].
  destruct (f c); [exact IH | discriminate].
Qed.

Lemma forallb_rev (f : char -> bool) (s : str) :
  forallb f (rev s) = forallb f s.
Proof.
  apply eq_true_iff_eq. rewrite !forallb_forall.
  split; intros H x Hx; apply H.
  - apply (proj1 (in_rev s x)), Hx.
  - apply (proj2 (in_rev s x)), Hx.
Qed.

Lemma rstrip_sep_snoc (s : str) :
  rstrip_sep (s ++ lit "/") = rstrip_sep s.
Proof. unfold rstrip_sep. now rewrite rev_app_distr. Qed.

Lemma rstrip_sep_nonempty (s : str) :
  forallb is_sep s = false -> rstrip_sep s <> [].
Proof.
  unfold rstrip_sep. intros H E.
  assert (dropwhile is_sep (rev s) = []) as E'.
  { rewrite <- (rev_involutive (dropwhile is_sep (rev s))), E. reflexivity. }
  apply dropwhile_nil in E'. rewrite forallb_rev in E'. congruence.
Qed.

Lemma glob_dirname_eq (dir : str) :
  glob_dirname dir =
  if forallb is_sep dir then dir ++ lit "/" else rstrip_sep dir.
Proof.
  unfold glob_dirname, path_split.
  change (dir ++ lit "/*.jpg") with (dir ++ (ch "/") :: lit "*.jpg").
  rewrite rpartition_sep_app by reflexivity.
  assert (str_eqb (dir ++ lit "/") [] = false) as ->.
  { destruct (str_eqb (dir ++ lit "/") []) eqn:E; [|reflexivity].
    apply str_eqb_eq in E. destruct dir; discriminate. }
  rewrite forallb_app. cbn [lit list_ascii_of_string forallb is_sep].
  change (N.eqb (ch "/") (ch "/")) with true. rewrite !andb_true_r.
  destruct (forallb is_sep dir); cbn [negb andb fst].
  - reflexivity.
  - apply rstrip_sep_snoc.
Qed.

Lemma glob_dirname_nonempty (dir : str) : glob_dirname dir <> [].
Proof.
  rewrite glob_dirname_eq. destruct (forallb is_sep dir) eqn:E.
  - destruct dir; discriminate.
  - now apply rstrip_sep_nonempty.
Qed.

(** For a directory written without a trailing separator, the directory
    listed is the directory itself. *)
Lemma glob_dirname_plain (dir : str) :
  dir <> [] -> endswith (lit "/") dir = false -> glob_dirname dir = dir.
Proof.
  intros Hne He. rewrite glob_dirname_eq.
  unfold endswith in He. unfold rstrip_sep.
  destruct (rev dir) as [|c r] eqn:Er.
  - exfalso. apply Hne. rewrite <- (rev_involutive dir), Er. reflexivity.
  - cbn in He. rewrite andb_true_r in He.
    assert (is_sep c = false) as Hc.
    { unfold is_sep. rewrite N.eqb_sym. exact He. }
    assert (forallb is_sep dir = false) as ->.
    { rewrite <- forallb_rev, Er. cbn. now rewrite Hc. }
    cbn. rewrite Hc. rewrite <- Er. apply rev_involutive.
Qed.

Lemma glob_star_jpg (fs : FileSystem) (dir : str) :
  has_magic (glob_dirname dir) = false ->
  glob fs (dir ++ lit "/*.jpg") =
  map (path_join (glob_dirname dir)) (glob1_star_jpg fs (glob_dirname dir)).
Proof.
  intros Hm. unfold glob.
  pose proof (glob_dirname_nonempty dir) as Hne.
  unfold glob_dirname in *.
  destruct (path_split (dir ++ lit "/*.jpg")) as [d b]. cbn [fst] in *.
  destruct (str_eqb d []) eqn:E; [apply str_eqb_eq in E; congruence|].
  rewrite Hm, andb_false_r. cbn. apply app_nil_r.
Qed.

Lemma fnmatch_hidden_iff (n : str) :
  negb (ishidden n) && fnmatch_star_jpg n = true <-> matches_star_jpg n.
Proof.
  unfold matches_star_jpg, fnmatch_star_jpg.
  rewrite andb_true_iff, endswith_iff, negb_true_iff. split.
  - intros [Hh Hs]. split; [exact Hs|]. intros [t ->].
    cbn in Hh. discriminate.
  - intros [Hs Hh]. split; [|exact Hs].
    destruct n as [|c t]; [reflexivity|]. cbn [ishidden].
    destruct (N.eqb c (ch ".")) eqn:E; [|reflexivity].
    apply N.eqb_eq in E. subst c. exfalso. apply Hh. now exists t.
Qed.

End GlobFacts.

(** [_glob1] keeps the entries that match, in listing order, whatever
    test decides the match. *)
Lemma glob1_filter (fs : FileSystem) (d : str) (f : str -> bool) :
  (forall n, f n = true <-> matches_star_jpg n) ->
  Glob.glob1_star_jpg fs d = filter f (fs_scandir fs d).
Proof.
  intros Hf. unfold Glob.glob1_star_jpg.
  induction (fs_scandir fs d) as [|n l IH]; [reflexivity|].
  cbn [filter].
  destruct (f n) eqn:Hn.
  - apply Hf, fnmatch_hidden_iff, andb_true_iff in Hn as [H1 H2].
    rewrite H1. cbn [filter]. rewrite H2. now rewrite IH.
  - destruct (negb (Glob.ishidden n)) eqn:H1.
    + cbn [filter]. destruct (Glob.fnmatch_star_jpg n) eqn:H2.
      * assert (f n = true) as E; [|congruence].
        apply Hf, fnmatch_hidden_iff. now rewrite H1, H2.
      * exact IH.
    + exact IH.
Qed.


Lemma path_join_plain (d n : str) :
  d <> [] -> PyStr.endswith (lit "/") d = false -> no_sep n = true ->
  Glob.path_join d n = d ++ lit "/" ++ n.
Proof.
  intros Hd He Hn. unfold Glob.path_join.
  destruct (PyStr.startswith (lit "/") n) eqn:Hs.
  - apply startswith_iff in Hs as [r ->]. discriminate Hn.
  - rewrite He. destruct (str_eqb d []) eqn:E; [|reflexivity].
    apply str_eqb_eq in E. congruence.
Qed.

Section CatalogFacts.

Import Pandas.

Variable isdecimal : char -> bool.
Variable fs : FileSystem.
Variable empty_dtype : dtype.

Lemma rpartition_values (paths : list str) :
  paths <> [] ->
  (partitioned <- str_rpartition (object_series (map Str paths)) ;;
   values_column partitioned 2) =
  Ok (map (fun p => Str (snd (PyStr.rpartition_sep p))) paths).
Proof.
  intros Hne. unfold str_rpartition. cbn [str_accessor object_series s_dtype s_values bind].
  assert (forall l : list str,
             map (widen 3) (map rpartition_cell (map Str l)) =
             map rpartition_cell (map Str l)) as Hw.
  { induction l as [|p l IH]; [reflexivity|]. cbn [map]. rewrite IH.
    f_equal. cbn. now destruct (PyStr.rpartition_sep p) as [[h sp] t]. }
  assert (forall l : list str, l <> [] ->
             fold_right Nat.max 0
               (map (@List.length cell) (map rpartition_cell (map Str l))) = 3)
    as Hmax.
  { induction l as [|p l IH]; [congruence|]. intros _. cbn [map fold_right].
    assert (List.length (rpartition_cell (Str p)) = 3) as ->
      by (cbn; now destruct (PyStr.rpartition_sep p) as [[h sp] t]).
    destruct l as [|q l]; [reflexivity|].
    rewrite IH by discriminate. reflexivity. }
  rewrite (Hmax paths Hne), Hw. unfold values_column. cbn [f_ncols f_rows].
  change (2 <? 3) with true. cbv iota. f_equal.
  rewrite !map_map. apply map_ext. intros p. cbn.
  now destruct (PyStr.rpartition_sep p) as [[h sp] t].
Qed.

(** The four columns, for a non-empty list of matching paths. *)
Lemma create_facedb_columns (dir : str) :
  let paths := Glob.glob fs (dir ++ lit "/*.jpg") in
  paths <> [] ->
  create_facedb isdecimal fs empty_dtype dir =
  Ok [ ("fullpath"%string, object_series (map Str paths));
       ("filename"%string,
        object_series (map (fun p => Str (snd (PyStr.rpartition_sep p))) paths));
       ("faceid"%string,
        object_series
          (map (fun p => extract_cell isdecimal (Str (snd (PyStr.rpartition_sep p)))) paths));
       ("jsonfile"%string,
        object_series
          (map (fun p => Str (PyStr.replace (lit ".jpg") (lit ".json")
                                (PyStr.replace segment_photos segment_metadata p)))
               paths)) ].
Proof.
  intros paths Hne. unfold create_facedb. fold paths.
  assert (series_of_list empty_dtype paths = object_series (map Str paths)) as ->
    by (destruct paths; [congruence | reflexivity]).
  cbn [setitem nrows assign bind getitem String.eqb Ascii.eqb Bool.eqb].
  pose proof (rpartition_values paths Hne) as Hr.
  destruct (str_rpartition (object_series (map Str paths))) as [fr|e];
    cbn [bind] in Hr |- *; [|discriminate Hr].
  rewrite Hr. cbn [bind setitem nrows object_series s_values].
  rewrite !length_map, Nat.eqb_refl.
  cbn [assign getitem String.eqb Ascii.eqb Bool.eqb bind].
  cbn [str_extract_faceid str_accessor object_series s_dtype s_values bind
       setitem nrows].
  rewrite !length_map, Nat.eqb_refl.
  cbn [assign getitem String.eqb Ascii.eqb Bool.eqb bind].
  cbn [str_replace str_accessor object_series s_dtype s_values bind
       setitem nrows].
  rewrite !length_map, Nat.eqb_refl.
  cbn [assign String.eqb Ascii.eqb Bool.eqb bind].
  rewrite !map_map. reflexivity.
Qed.

(** Without any matching path the builder raises: the [.str] accessor
    refuses the float64 column; from an object column without rows
    [rpartition] would build a frame that has no third column. *)
Lemma create_facedb_no_paths (dir : str) :
  Glob.glob fs (dir ++ lit "/*.jpg") = [] ->
  create_facedb isdecimal fs empty_dtype dir =
  Raise (match empty_dtype with
         | Float64Dtype => AttributeError
         | ObjectDtype => IndexError
         end).
Proof.
  intros H. unfold create_facedb. rewrite H.
  destruct empty_dtype; reflexivity.
Qed.

End CatalogFacts.

(** ** More about the string operations *)

Section MoreStringFacts.

Import PyStr.

Lemma takewhile_dropwhile (f : char -> bool) (s : str) :
  takewhile f s ++ dropwhile f s = s.
Proof.
  induction s as [|c s IH]; simpl; [reflexivity|].
  destruct (f c); simpl; [now rewrite IH | reflexivity].
Qed.

Lemma takewhile_forallb (f : char -> bool) (s : str) :
  forallb f (takewhile f s) = true.
Proof.
  induction s as [|c s IH]; simpl; [reflexivity|].
  destruct (f c) eqn:E; simpl; [now rewrite E, IH | reflexivity].
Qed.

Lemma dropwhile_head (f : char -> bool) (s : str) (c : char) (r : str) :
  dropwhile f s = c :: r -> f c = false.
Proof.
  induction s as [|x s IH]; simpl; [discriminate|].
  destruct (f x) eqn:E; [exact IH|]. intros H. injection H as <- _. exact E.
Qed.

Lemma dropwhile_length (f : char -> bool) (s : str) :
  List.length (dropwhile f s) <= List.length s.
Proof.
  induction s as [|x s IH]; simpl; [lia|]. destruct (f x); simpl; lia.
Qed.

(** [rpartition] splits at the last separator: the three parts give the
    string back, and the tail has no separator. *)
Lemma rpartition_sep_parts (s h sep t : str) :
  rpartition_sep s = (h, sep, t) ->
  s = h ++ sep ++ t /\ no_sep t = true /\
  (sep = lit "/" \/ (sep = [] /\ h = [])).
Proof.
  unfold rpartition_sep. intros H.
  pose proof (takewhile_dropwhile (fun c => negb (is_sep c)) (rev s)) as Hs.
  pose proof (takewhile_forallb (fun c => negb (is_sep c)) (rev s)) as Ht.
  assert (no_sep (rev (takewhile (fun c => negb (is_sep c)) (rev s))) = true) as Hno
    by (now rewrite no_sep_rev).
  destruct (dropwhile (fun c => negb (is_sep c)) (rev s)) as [|c r] eqn:Ed.
  - injection H as <- <- <-. rewrite app_nil_r in Hs.
    split; [|split; [exact Hno | right; now split]].
    cbn [app]. now rewrite Hs, rev_involutive.
  - injection H as <- <- <-.
    split; [|split; [exact Hno | left; reflexivity]].
    apply dropwhile_head in Ed. apply negb_false_iff, N.eqb_eq in Ed. subst c.
    set (tw := takewhile (fun c => negb (is_sep c)) (rev s)) in *.
    apply (f_equal (@rev char)) in Hs. rewrite rev_involutive in Hs.
    rewrite <- Hs, rev_app_distr. cbn [rev]. now rewrite <- app_assoc.
Qed.

(** Where the first [x] of a string is: when [x] is not in [u'], the
    [x] after [u'] is the first one. *)
Lemma split_first (x : char) (u v u' v' : str) :
  u ++ x :: v = u' ++ x :: v' -> ~ In x u' ->
  (u = u' /\ v = v') \/ (exists w, u = u' ++ x :: w /\ v' = w ++ x :: v).
Proof.
  revert u. induction u' as [|c u' IH]; intros u E Hx.
  - destruct u as [|d u]; cbn in E.
    + left. injection E as E. now split.
    + right. injection E as -> E. exists u. now split.
  - destruct u as [|d u]; cbn in E.
    + injection E as -> _. exfalso. apply Hx. now left.
    + injection E as -> E.
      destruct (IH u E) as [[-> ->] | (w & -> & ->)].
      * intros C. apply Hx. now right.
      * now left.
      * right. now exists w.
Qed.

(** A suffix [w] that is no longer than [v] is a suffix of [v]. *)
Lemma suffix_of_app (u v x w : str) :
  u ++ v = x ++ w ->
  (exists v0, v = v0 ++ w) \/
  (exists l, l <> [] /\ w = l ++ v /\ u = x ++ l).
Proof.
  intros E. apply app_eq_app in E as [l [[-> ->] | [-> ->]]].
  - destruct l as [|c l].
    + left. now exists [].
    + right. exists (c :: l). repeat split. discriminate.
  - left. now exists l.
Qed.

End MoreStringFacts.

(** ** The metadata path of a photo path of the expected form *)

Section MetadataPathFacts.

Import PyStr.

Lemma no_occ_contains (old s : str) :
  old <> [] -> (forall a, ~ occurs_at old a s) -> contains old s = false.
Proof.
  intros Hne Hno. destruct (contains old s) eqn:E; [|reflexivity].
  destruct (replace_first old [] Hne s E) as (a & b & -> & _ & _).
  exfalso. apply (Hno a). now exists b.
Qed.

Lemma segment_photos_split (y t : str) :
  y ++ segment_photos ++ t =
  (y ++ lit "/generated") ++ (ch ".") :: (lit "photos/" ++ t).
Proof. now rewrite <- app_assoc. Qed.

Lemma segment_metadata_split (y t : str) :
  y ++ segment_metadata ++ t =
  (y ++ lit "/generated") ++ (ch ".") :: (lit "photos_metadata/" ++ t).
Proof. now rewrite <- app_assoc. Qed.

Lemma no_dot_generated (y : str) :
  ~ In (ch ".") y -> ~ In (ch ".") (y ++ lit "/generated").
Proof.
  intros Hy H. apply in_app_or in H as [H|H]; [now apply Hy|].
  cbn in H. intuition discriminate.
Qed.

(** With no dot before it, the directory segment after [parent] is the
    first one of the path. *)
Lemma segment_leftmost (parent rest : str) :
  ~ In (ch ".") parent ->
  leftmost_at segment_photos parent (parent ++ segment_photos ++ rest).
Proof.
  intros Hp. split; [now exists rest|]. intros a' [b' E].
  rewrite !segment_photos_split in E. symmetry in E.
  apply split_first in E; [|now apply no_dot_generated].
  destruct E as [[E _] | (w & E & _)];
    apply (f_equal (@List.length char)) in E;
    rewrite !length_app in E; cbn in E; lia.
Qed.

(** A string without a dot, followed by [".jpg"], holds no directory
    segment. *)
Lemma no_segment_in_plain (base : str) :
  ~ In (ch ".") base ->
  contains segment_photos (base ++ lit ".jpg") = false.
Proof.
  intros Hb. apply no_occ_contains; [discriminate|]. intros a [b E].
  rewrite segment_photos_split in E.
  change (base ++ lit ".jpg") with (base ++ (ch ".") :: lit "jpg") in E.
  symmetry in E. apply split_first in E; [|exact Hb].
  destruct E as [[_ E] | (w & _ & E)]; [discriminate E|].
  destruct w as [|c1 [|c2 [|c3 [|c4 w]]]]; discriminate E.
Qed.

(** With no dot before it, a final [".jpg"] is the first [".jpg"]. *)
Lemma jpg_leftmost_plain (base : str) :
  ~ In (ch ".") base ->
  leftmost_at (lit ".jpg") base (base ++ lit ".jpg" ++ []).
Proof.
  intros Hb. split; [now exists []|]. intros a' [b' E].
  change (base ++ lit ".jpg" ++ []) with (base ++ (ch ".") :: lit "jpg") in E.
  change (a' ++ lit ".jpg" ++ b') with (a' ++ (ch ".") :: (lit "jpg" ++ b')) in E.
  symmetry in E. apply split_first in E; [|exact Hb].
  destruct E as [[-> _] | (w & -> & _)]; [lia|].
  rewrite !length_app. lia.
Qed.

(** The same after the metadata segment, whose dot is followed by
    [photos], not by [jpg]. *)
Lemma jpg_leftmost_metadata (parent stem : str) :
  ~ In (ch ".") parent -> ~ In (ch ".") stem ->
  leftmost_at (lit ".jpg") (parent ++ segment_metadata ++ stem)
              ((parent ++ segment_metadata ++ stem) ++ lit ".jpg" ++ []).
Proof.
  intros Hp Hs. split; [now exists []|]. intros a' [b' E].
  assert ((parent ++ segment_metadata ++ stem) ++ lit ".jpg" ++ [] =
          parent ++ segment_metadata ++ (stem ++ lit ".jpg")) as E0
    by (now rewrite <- !app_assoc).
  rewrite E0, segment_metadata_split in E.
  change (a' ++ lit ".jpg" ++ b') with (a' ++ (ch ".") :: (lit "jpg" ++ b')) in E.
  symmetry in E. apply split_first in E; [|now apply no_dot_generated].
  destruct E as [[_ E] | (w & -> & E)]; [discriminate E|].
  assert (lit "photos_metadata/" ++ stem ++ lit ".jpg" =
          (lit "photos_metadata/" ++ stem) ++ (ch ".") :: lit "jpg") as E1
    by (now rewrite <- app_assoc).
  rewrite E1 in E. symmetry in E. apply split_first in E.
  - assert (List.length (lit "photos_metadata/" ++ stem) <= List.length w) as Hw.
    { destruct E as [[-> _] | (w2 & -> & _)]; [lia|]. rewrite !length_app. lia. }
    rewrite !length_app in *. cbn in *. lia.
  - intros H. apply in_app_or in H as [H|H]; [|now apply Hs].
    cbn in H. intuition discriminate.
Qed.


End MetadataPathFacts.

(** ** The catalog of a directory *)



(** The scenario of the specification: three photos with valid ids. *)
Example create_facedb_three :
  create_facedb sample_decimal fs_three Pandas.Float64Dtype
    (lit "/srv/data/generated.photos") =
  Ok [ ("fullpath"%string, Pandas.object_series
         [Pandas.Str (lit "/srv/data/generated.photos/a_0000001_b.jpg");
          Pandas.Str (lit "/srv/data/generated.photos/c_0000002.jpg");
          Pandas.Str (lit "/srv/data/generated.photos/d_0000003_e.jpg")]);
       ("filename"%string, Pandas.object_series
         [Pandas.Str (lit "a_0000001_b.jpg");
          Pandas.Str (lit "c_0000002.jpg");
          Pandas.Str (lit "d_0000003_e.jpg")]);
       ("faceid"%string, Pandas.object_series
         [Pandas.Str (lit "0000001");
          Pandas.Str (lit "0000002");
          Pandas.Str (lit "0000003")]);
       ("jsonfile"%string, Pandas.object_series
         [Pandas.Str (lit "/srv/data/generated.photos_metadata/a_0000001_b.json");
          Pandas.Str (lit "/srv/data/generated.photos_metadata/c_0000002.json");
          Pandas.Str (lit "/srv/data/generated.photos_metadata/d_0000003_e.json")]) ].
Proof. vm_compute. reflexivity. Qed.

(** The face id is the leftmost group of seven decimal digits of any
    script: here the group written with the Arabic-Indic digits U+0661 ..
    U+0667, not the later group of ASCII digits. *)
Example search_faceid_other_script :
  Regex.search_faceid sample_decimal
    (lit "a_" ++ [1633; 1634; 1635; 1636; 1637; 1638; 1639]%N
       ++ lit "_b_0000001_.jpg") =
  Some [1633; 1634; 1635; 1636; 1637; 1638; 1639]%N.
Proof. vm_compute. reflexivity. Qed.



(** C8.  In a directory without any entry matching ["*.jpg"],
    [create_facedb] does not return an empty catalog: it raises.  pandas
    types the empty column float64, and the [.str] accessor raises
    [AttributeError]; were the column typed object, the failure would be
    the [IndexError] of [partitioned.values[:, 2]]. *)
Theorem create_facedb_empty_directory
  (nd : char -> bool)
  (fs : FileSystem) (dt : Pandas.dtype) (dir : str) (f : str -> bool) :
  (forall n, f n = true <-> matches_star_jpg n) ->
  Glob.has_magic (glob_dirname dir) = false ->
  filter f (fs_scandir fs (glob_dirname dir)) = [] ->
  create_facedb nd fs dt dir =
  Raise (match dt with
         | Pandas.Float64Dtype => AttributeError
         | Pandas.ObjectDtype => IndexError
         end).
Proof.
  intros Hf Hm He. apply create_facedb_no_paths.
  rewrite (glob_star_jpg fs dir Hm), (glob1_filter fs (glob_dirname dir) f Hf), He.
  reflexivity.
Qed.

Lemma create_facedb_empty_directory_witness :
  Glob.has_magic (glob_dirname (lit "/srv/data/empty")) = false /\
  filter visible_jpg (fs_scandir fs_three (glob_dirname (lit "/srv/data/empty"))) = [] /\
  create_facedb sample_decimal fs_three Pandas.ObjectDtype
    (lit "/srv/data/empty") = Raise IndexError /\
  create_facedb sample_decimal fs_three Pandas.Float64Dtype (lit "/srv/data/empty") =
    Raise AttributeError.
Proof.
  split; [vm_compute; reflexivity|].
  split; [vm_compute; reflexivity|].
  split.
  - apply (create_facedb_empty_directory sample_decimal fs_three Pandas.ObjectDtype
             (lit "/srv/data/empty") visible_jpg).
    + exact fnmatch_hidden_iff.
    + vm_compute. reflexivity.
    + vm_compute. reflexivity.
  - apply (create_facedb_empty_directory sample_decimal fs_three Pandas.Float64Dtype
             (lit "/srv/data/empty") visible_jpg).
    + exact fnmatch_hidden_iff.
    + vm_compute. reflexivity.
    + vm_compute. reflexivity.
Defined.

(** ** Facts about slicing, chunking and reshaping *)

Section ListFacts.

Context {A : Type}.

Lemma ceil_div_upper (m s : nat) : 1 <= s -> m <= ceil_div m s * s.
Proof.
  intros Hs. unfold ceil_div.
  pose proof (Nat.div_mod_eq (m + s - 1) s) as E.
  pose proof (Nat.mod_upper_bound (m + s - 1) s) as B.
  nia.
Qed.

Lemma ceil_div_lower (m s i : nat) : 1 <= s -> i < ceil_div m s -> i * s < m.
Proof.
  intros Hs Hi. unfold ceil_div in Hi.
  pose proof (Nat.div_mod_eq (m + s - 1) s) as E.
  nia.
Qed.

Lemma every_from_nth (s : nat) (l : list A) :
  1 <= s ->
  forall k i, nth_error (every_from s k l) i = nth_error l (k + i * s).
Proof.
  intros Hs. induction l as [|x t IH]; intros k i.
  - simpl. now destruct i, (k + _).
  - destruct k as [|k]; cbn [every_from].
    + destruct i as [|i]; [reflexivity|].
      cbn [nth_error]. rewrite IH.
      replace (0 + S i * s) with (S (s - 1 + i * s)) by (simpl; lia).
      reflexivity.
    + rewrite IH. reflexivity.
Qed.

Lemma every_from_length (s : nat) (l : list A) :
  1 <= s -> List.length (every_from s 0 l) = ceil_div (List.length l) s.
Proof.
  intros Hs. set (n := ceil_div (List.length l) s).
  apply Nat.le_antisymm.
  - apply nth_error_None. rewrite every_from_nth by exact Hs.
    apply nth_error_None. pose proof (ceil_div_upper (List.length l) s Hs).
    fold n in H. lia.
  - destruct n as [|n'] eqn:En; [lia|].
    apply nth_error_Some. rewrite every_from_nth by exact Hs.
    apply nth_error_Some.
    pose proof (ceil_div_lower (List.length l) s n' Hs). fold n in H.
    rewrite En in H. lia.
Qed.

Lemma chunks_length (n k : nat) (l : list A) : List.length (chunks n k l) = n.
Proof.
  revert l. induction n as [|n IH]; intros l; [reflexivity|].
  simpl. now rewrite IH.
Qed.

Lemma chunks_nth (n k : nat) (l : list A) (i : nat) :
  i < n -> nth_error (chunks n k l) i = Some (firstn k (skipn (i * k) l)).
Proof.
  revert l i. induction n as [|n IH]; intros l i Hi; [lia|].
  destruct i as [|i]; [reflexivity|].
  cbn [chunks nth_error]. rewrite IH by lia.
  now rewrite skipn_skipn, (Nat.add_comm (i * k) k).
Qed.

Lemma chunks_uniform (n k : nat) (l : list A) :
  List.length l = n * k ->
  Forall (fun c => List.length c = k) (chunks n k l).
Proof.
  revert l. induction n as [|n IH]; intros l Hl; [constructor|].
  cbn [chunks]. constructor.
  - rewrite length_firstn. nia.
  - apply IH. rewrite length_skipn. nia.
Qed.

Lemma concat_chunks (n k : nat) (l : list A) :
  List.length l = n * k -> List.concat (chunks n k l) = l.
Proof.
  revert l. induction n as [|n IH]; intros l Hl.
  - destruct l; [reflexivity | discriminate].
  - cbn [chunks List.concat]. rewrite IH.
    + apply firstn_skipn.
    + rewrite length_skipn. nia.
Qed.

Lemma chunks_concat (k : nat) (rows : list (list A)) :
  Forall (fun c => List.length c = k) rows ->
  chunks (List.length rows) k (List.concat rows) = rows.
Proof.
  induction 1 as [|r rows Hr _ IH]; [reflexivity|].
  cbn [List.length chunks List.concat].
  rewrite firstn_app, firstn_all2, skipn_app, skipn_all2 by lia.
  replace (k - List.length r) with 0 by lia.
  cbn [firstn skipn app]. now rewrite app_nil_r, IH.
Qed.

Lemma concat_uniform_length (k : nat) (rows : list (list A)) :
  Forall (fun c => List.length c = k) rows ->
  List.length (List.concat rows) = List.length rows * k.
Proof.
  induction 1 as [|r rows Hr _ IH]; [reflexivity|].
  cbn [List.concat List.length]. rewrite length_app, IH. lia.
Qed.

Lemma concat_uniform_nth (k : nat) (rows : list (list A)) (i j : nat) :
  Forall (fun c => List.length c = k) rows -> j < k ->
  nth_error (List.concat rows) (i * k + j) =
  match nth_error rows i with
  | Some r => nth_error r j
  | None => None
  end.
Proof.
  intros H Hj. revert i. induction H as [|r rows Hr _ IH]; intros i.
  - now destruct i, (_ + j).
  - cbn [List.concat]. destruct i as [|i].
    + cbn [nth_error Nat.mul Nat.add]. apply nth_error_app1. lia.
    + cbn [nth_error]. rewrite nth_error_app2 by (simpl; lia).
      replace (S i * k + j - List.length r) with (i * k + j) by (simpl; lia).
      apply IH.
Qed.

Lemma firstn_skipn_nth (k off j : nat) (l : list A) :
  j < k -> nth_error (firstn k (skipn off l)) j = nth_error l (off + j).
Proof.
  intros Hj. rewrite nth_error_firstn.
  destruct (j <? k) eqn:E; [|apply Nat.ltb_ge in E; lia].
  apply nth_error_skipn.
Qed.

Lemma mapM_ok {B : Type} (f : A -> result B) (g : A -> B) (l : list A) :
  (forall x, In x l -> f x = Ok (g x)) -> mapM f l = Ok (map g l).
Proof.
  induction l as [|x t IH]; intros H; [reflexivity|].
  cbn [mapM map]. rewrite (H x) by now left. cbn [bind].
  rewrite IH by (intros y Hy; apply H; now right). reflexivity.
Qed.

Lemma slice_step_pos (s : Z) (l : list A) :
  (0 < s)%Z -> slice_step s l = Ok (every_from (Z.to_nat s) 0 l).
Proof.
  intros Hs. unfold slice_step.
  destruct (Z.eqb_spec s 0); [lia|].
  destruct (Z.ltb_spec 0 s); [reflexivity | lia].
Qed.

Lemma slice_len_pos (s : Z) (n : nat) :
  (0 < s)%Z -> slice_len s n = ceil_div n (Z.to_nat s).
Proof. intros Hs. unfold slice_len, ceil_div. now rewrite Z.abs_eq by lia. Qed.

End ListFacts.

Section SliceFacts.

Context {A : Type}.

Lemma slice2_sliced (s : Z) (h w : nat) (a : ndarray A) :
  (0 < s)%Z -> shape a = [h; w] ->
  slice2 s a = Ok (sliced (Z.to_nat s) h w a).
Proof.
  intros Hs Hsh. unfold slice2. rewrite Hsh.
  rewrite slice_step_pos by exact Hs. cbn [bind].
  rewrite (mapM_ok (slice_step s) (every_from (Z.to_nat s) 0))
    by (intros; now apply slice_step_pos).
  cbn [bind]. unfold sliced. now rewrite !slice_len_pos by exact Hs.
Qed.

Lemma sliced_rows_uniform (k h w : nat) (a : ndarray A) :
  1 <= k -> List.length (data a) = h * w ->
  Forall (fun r => List.length r = ceil_div w k)
         (map (every_from k 0) (every_from k 0 (chunks h w (data a)))).
Proof.
  intros Hk Hwf. apply Forall_forall. intros r Hr.
  apply in_map_iff in Hr as (r0 & <- & Hr0).
  rewrite every_from_length by exact Hk. f_equal.
  apply In_nth_error in Hr0 as [i Hi].
  rewrite every_from_nth in Hi by exact Hk.
  pose proof (chunks_uniform h w (data a) Hwf) as Hu.
  rewrite Forall_forall in Hu. apply Hu.
  eapply nth_error_In. exact Hi.
Qed.

Lemma sliced_wf (k h w : nat) (a : ndarray A) :
  1 <= k -> List.length (data a) = h * w -> array_wf (sliced k h w a).
Proof.
  intros Hk Hwf. unfold array_wf, size, sliced. cbn [shape data prod_shape fold_right].
  rewrite (concat_uniform_length (ceil_div w k)) by now apply sliced_rows_uniform.
  rewrite length_map, every_from_length, chunks_length by exact Hk. lia.
Qed.

Lemma sliced_get2 (k h w : nat) (a : ndarray A) (i j : nat) :
  1 <= k -> shape a = [h; w] -> List.length (data a) = h * w ->
  i < ceil_div h k -> j < ceil_div w k ->
  get2 (sliced k h w a) i j = get2 a (i * k) (j * k) /\
  get2 (sliced k h w a) i j <> None.
Proof.
  intros Hk Hsh Hwf Hi Hj.
  pose proof (ceil_div_lower h k i Hk Hi) as Hik.
  pose proof (ceil_div_lower w k j Hk Hj) as Hjk.
  assert (get2 (sliced k h w a) i j = nth_error (data a) (i * k * w + j * k)) as E.
  { unfold get2, sliced. cbn [shape data].
    destruct (Nat.ltb_spec i (ceil_div h k)); [|lia].
    destruct (Nat.ltb_spec j (ceil_div w k)); [|lia].
    cbn [andb].
    rewrite (concat_uniform_nth (ceil_div w k))
      by (try apply sliced_rows_uniform; assumption).
    rewrite nth_error_map, every_from_nth by exact Hk.
    cbn [Nat.add]. rewrite chunks_nth by exact Hik. cbn [option_map].
    rewrite every_from_nth by exact Hk. cbn [Nat.add].
    now rewrite firstn_skipn_nth by exact Hjk. }
  split.
  - rewrite E. unfold get2. rewrite Hsh.
    destruct (Nat.ltb_spec (i * k) h); [|lia].
    destruct (Nat.ltb_spec (j * k) w); [|lia].
    reflexivity.
  - rewrite E. apply nth_error_Some. nia.
Qed.

End SliceFacts.

(** C3.  Taking every [s]-th row and column of an [m x m] grid, for a
    positive stride [s], gives a grid of [ceil(m/s) x ceil(m/s)] entries
    whose entry [(i, j)] is the original entry [(i*s, j*s)].  A 10 x 10
    grid holding 0 .. 99 keeps, with stride 2, the 5 x 5 entries at even
    rows and columns, and a 256 x 256 grid becomes 52 x 52 with the
    notebook's stride. *)
Theorem downsample_grid :
  (forall (A : Type) (a : ndarray A) (m : nat) (s : Z),
      (0 < s)%Z -> shape a = [m; m] -> array_wf a ->
      exists b,
        slice2 s a = Ok b /\
        shape b = [ceil_div m (Z.to_nat s); ceil_div m (Z.to_nat s)] /\
        array_wf b /\
        forall i j,
          i < ceil_div m (Z.to_nat s) -> j < ceil_div m (Z.to_nat s) ->
          get2 b i j = get2 a (i * Z.to_nat s) (j * Z.to_nat s) /\
          get2 b i j <> None) /\
  slice2 2 {| shape := [10; 10]; data := seq 0 100 |} =
    Ok {| shape := [5; 5];
          data := [ 0;  2;  4;  6;  8;
                   20; 22; 24; 26; 28;
                   40; 42; 44; 46; 48;
                   60; 62; 64; 66; 68;
                   80; 82; 84; 86; 88] |} /\
  (forall (A : Type) (a : ndarray A),
      shape a = [256; 256] -> array_wf a ->
      exists b, slice2 downsample a = Ok b /\ shape b = [52; 52] /\ array_wf b).
Proof.
  assert (forall (A : Type) (a : ndarray A) (h w : nat),
             shape a = [h; w] -> array_wf a -> List.length (data a) = h * w)
    as Hlen.
  { intros A a h w Hsh Hwf. unfold array_wf, size in Hwf. rewrite Hsh in Hwf.
    cbn in Hwf. lia. }
  split; [|split].
  - intros A a m s Hs Hsh Hwf.
    exists (sliced (Z.to_nat s) m m a).
    split; [now apply slice2_sliced|]. split; [reflexivity|].
    split; [apply sliced_wf; [lia | now apply Hlen]|].
    intros i j Hi Hj. apply sliced_get2; try assumption; [lia | now apply Hlen].
  - vm_compute. reflexivity.
  - intros A a Hsh Hwf. exists (sliced 5 256 256 a).
    split; [now apply (slice2_sliced 5 256 256 a)|].
    split; [reflexivity|].
    apply sliced_wf; [lia | now apply Hlen].
Qed.

Lemma downsample_grid_witness :
  let a := {| shape := [3; 3]; data := [1; 2; 3; 4; 5; 6; 7; 8; 9] |} in
  (0 < 2)%Z /\ shape a = [3; 3] /\ array_wf a /\
  exists b,
    slice2 2 a = Ok b /\
    shape b = [ceil_div 3 (Z.to_nat 2); ceil_div 3 (Z.to_nat 2)] /\
    array_wf b /\
    forall i j,
      i < ceil_div 3 (Z.to_nat 2) -> j < ceil_div 3 (Z.to_nat 2) ->
      get2 b i j = get2 a (i * Z.to_nat 2) (j * Z.to_nat 2) /\
      get2 b i j <> None.
Proof.
  intros a.
  split; [lia|]. split; [reflexivity|]. split; [reflexivity|].
  apply (proj1 downsample_grid nat a 3 2%Z); [lia | reflexivity | reflexivity].
Defined.

(** ** Flattening a stack and reshaping its rows *)

Section StackFacts.

Context {A : Type}.

Lemma reshape_rows_stack (a : ndarray A) (n : nat) (rest : list nat) :
  shape a = n :: rest -> 1 <= n ->
  reshape_rows a n = Ok {| shape := [n; prod_shape rest]; data := data a |}.
Proof.
  intros Hsh Hn. unfold reshape_rows, size. rewrite Hsh.
  cbn [prod_shape fold_right]. fold (prod_shape rest).
  destruct (Nat.eqb_spec n 0); [lia|]. cbn [orb].
  rewrite (Nat.mul_comm n), Nat.Div0.mod_mul, Nat.div_mul by lia.
  reflexivity.
Qed.

(** Stacking arrays of one shape, then taking the [i]-th entry along the
    first axis, gives the [i]-th array back. *)
Lemma stack_index0 (l : list (ndarray A)) (sh : list nat) (i : nat) (g : ndarray A) :
  Forall (fun b => shape b = sh /\ array_wf b) l ->
  nth_error l i = Some g ->
  exists stack,
    np_array_stack l = Ok stack /\
    shape stack = List.length l :: sh /\
    array_wf stack /\
    index0 stack i = Ok g.
Proof.
  intros Hall Hi.
  assert (Forall (fun d => List.length d = prod_shape sh) (map data l)) as Hu.
  { apply Forall_forall. intros d Hd. apply in_map_iff in Hd as (b & <- & Hb).
    rewrite Forall_forall in Hall. destruct (Hall b Hb) as [Hs Hw].
    unfold array_wf, size in Hw. now rewrite Hs in Hw. }
  destruct l as [|a0 l0] eqn:El; [destruct i; discriminate|].
  rewrite <- El in *.
  assert (shape a0 = sh) as Ha0.
  { rewrite El in Hall. now inversion Hall as [|? ? [? _] _]. }
  assert (np_array_stack l =
          Ok {| shape := List.length l :: sh; data := List.concat (map data l) |})
    as Hst.
  { rewrite El. unfold np_array_stack. rewrite <- El, Ha0.
    assert (forallb (fun b => shape_eqb (shape b) sh) l = true) as ->; [|reflexivity].
    apply forallb_forall. intros b Hb. rewrite Forall_forall in Hall.
    destruct (Hall b Hb) as [-> _]. unfold shape_eqb.
    now destruct (list_eq_dec Nat.eq_dec sh sh). }
  eexists. split; [exact Hst|]. split; [reflexivity|]. split.
  - unfold array_wf, size. cbn [shape data prod_shape fold_right].
    rewrite (concat_uniform_length (prod_shape sh)) by exact Hu.
    now rewrite length_map.
  - unfold index0. cbn [shape data].
    assert (i < List.length l) as Hlt by (apply nth_error_Some; congruence).
    destruct (Nat.ltb_spec i (List.length l)); [|lia].
    pose proof (chunks_nth (List.length (map data l)) (prod_shape sh)
                  (List.concat (map data l)) i) as Hc.
    rewrite length_map in Hc. specialize (Hc Hlt).
    rewrite <- (length_map data l), chunks_concat in Hc by exact Hu.
    rewrite nth_error_map, Hi in Hc. cbn [option_map] in Hc.
    injection Hc as Hc. rewrite <- Hc.
    rewrite Forall_forall in Hall.
    destruct (Hall g (nth_error_In _ _ Hi)) as [Hs _].
    destruct g as [gs gd]. cbn in Hs |- *. now subst gs.
Qed.

End StackFacts.

(** C4 (amended).  For every stack of [n >= 1] images of shape [(h, w)],
    flattening with [reshape(n, -1)] gives a matrix of shape
    [(n, h * w)], and reshaping row [i] of that matrix back to [(h, w)]
    gives image [i] of the stack, entry for entry. *)
Theorem flatten_reshape_roundtrip
  (A : Type) (image_list : ndarray A) (n h w : nat) :
  shape image_list = [n; h; w] -> array_wf image_list -> 1 <= n ->
  exists image_flattened,
    reshape_rows image_list n = Ok image_flattened /\
    shape image_flattened = [n; h * w] /\
    array_wf image_flattened /\
    forall i, i < n ->
      exists row grid,
        index0 image_flattened i = Ok row /\
        shape row = [h * w] /\
        reshape row (tl (shape image_list)) = Ok grid /\
        shape grid = [h; w] /\
        array_wf grid /\
        index0 image_list i = Ok grid.
Proof.
  intros Hsh Hwf Hn.
  assert (prod_shape [h; w] = h * w) as Hp by (cbn; lia).
  assert (List.length (data image_list) = n * (h * w)) as Hlen.
  { unfold array_wf, size in Hwf. rewrite Hsh in Hwf. cbn in Hwf. lia. }
  exists {| shape := [n; h * w]; data := data image_list |}.
  split; [|split; [reflexivity|split]].
  - rewrite (reshape_rows_stack image_list n [h; w] Hsh Hn). now rewrite Hp.
  - unfold array_wf, size. cbn [shape data prod_shape fold_right]. lia.
  - intros i Hi.
    set (d := firstn (h * w) (skipn (i * (h * w)) (data image_list))).
    assert (List.length d = h * w) as Hd.
    { unfold d. rewrite length_firstn, length_skipn. nia. }
    exists {| shape := [h * w]; data := d |}, {| shape := [h; w]; data := d |}.
    split; [|split; [reflexivity|split; [|split; [reflexivity|split]]]].
    + unfold index0. cbn [shape data].
      destruct (Nat.ltb_spec i n); [|lia].
      unfold d. cbn [prod_shape fold_right]. now rewrite !Nat.mul_1_r.
    + rewrite Hsh. cbn [tl]. unfold reshape, size. cbn [shape data].
      assert (prod_shape [h * w] = prod_shape [h; w]) as -> by (cbn; lia).
      now rewrite Nat.eqb_refl.
    + unfold array_wf, size. cbn [shape data]. now rewrite Hp.
    + unfold index0. rewrite Hsh.
      destruct (Nat.ltb_spec i n); [|lia].
      unfold d. now rewrite Hp.
Qed.

Lemma flatten_reshape_roundtrip_witness :
  let image_list :=
    {| shape := [2; 2; 3]; data := [1; 2; 3; 4; 5; 6; 7; 8; 9; 10; 11; 12] |} in
  array_wf image_list /\
  exists image_flattened,
    reshape_rows image_list 2 = Ok image_flattened /\
    shape image_flattened = [2; 2 * 3] /\
    array_wf image_flattened /\
    forall i, i < 2 ->
      exists row grid,
        index0 image_flattened i = Ok row /\
        shape row = [2 * 3] /\
        reshape row (tl (shape image_list)) = Ok grid /\
        shape grid = [2; 3] /\
        array_wf grid /\
        index0 image_list i = Ok grid.
Proof.
  intros image_list. split; [reflexivity|].
  apply (flatten_reshape_roundtrip nat image_list 2 2 3);
    [reflexivity | reflexivity | lia].
Defined.

(** C4 as stated fails for the empty stack: [reshape(0, -1)] is refused,
    because the missing dimension cannot be inferred. *)
Lemma flatten_empty_stack_counterexample :
  ~ (forall (A : Type) (image_list : ndarray A) (n h w : nat),
        shape image_list = [n; h; w] -> array_wf image_list ->
        exists image_flattened,
          reshape_rows image_list n = Ok image_flattened /\
          shape image_flattened = [n; h * w]).
Proof.
  intros H.
  destruct (H nat {| shape := [0; 52; 52]; data := [] |} 0 52 52
              eq_refl eq_refl) as (f & Hf & _).
  vm_compute in Hf. discriminate Hf.
Qed.

(** ** The pixel loader *)

Section PixelLoaderFacts.

Context {float : Type}.
Variable fdot : list Z -> list Q -> float.
Variable facedb : Pandas.DataFrame.
Variable image_open : str -> result Image.

(** For a three-band image of 256 * 256 pixels the loop body returns the
    downsampled gray grid. *)
Lemma load_gray_valid (id : Z) (im : Image) :
  valid_id facedb image_open id im ->
  load_gray fdot facedb image_open id = Ok (sliced 5 256 256 (gray_image_of fdot im)).
Proof.
  intros (path & Hdf & Hop & (Hb1 & Hsz & Hpx) & Hb & Hn).
  unfold load_gray. rewrite Hdf. cbn [bind]. rewrite Hop. cbn [bind].
  unfold np_array_getdata. rewrite Hb.
  change (3 =? 1) with false. cbn [orb].
  destruct (Nat.eqb_spec (List.length (im_getdata im)) 0) as [E|_];
    [rewrite Hn in E; discriminate E|].
  unfold np_dot. cbn [shape data rev app].
  change (3 =? List.length rgb_weights) with true. cbv iota.
  cbn [prod_shape fold_right bind]. rewrite Nat.mul_1_r.
  rewrite chunks_concat by (now rewrite Hb in Hpx).
  unfold reshape, size. cbn [shape data prod_shape fold_right].
  rewrite Hn, !Nat.mul_1_r, Nat.eqb_refl. cbn [bind].
  now rewrite (slice2_sliced downsample 256 256).
Qed.

Lemma gray_grid_of_sliced (im : Image) :
  List.length (im_getdata im) = 256 * 256 ->
  gray_grid_of fdot im (sliced 5 256 256 (gray_image_of fdot im)).
Proof.
  intros Hn.
  assert (List.length (data (gray_image_of fdot im)) = 256 * 256) as Hlen
    by (unfold gray_image_of; cbn [data]; now rewrite length_map).
  split; [reflexivity|]. split; [apply sliced_wf; [lia | exact Hlen]|].
  intros r c Hr Hc.
  destruct (sliced_get2 5 256 256 (gray_image_of fdot im) r c) as [E Hsome];
    [lia | reflexivity | exact Hlen | exact Hr | exact Hc |].
  split; [|exact Hsome].
  rewrite E. unfold get2, gray_image_of. cbn [shape data].
  destruct (Nat.ltb_spec (r * 5) 256); [|lia].
  destruct (Nat.ltb_spec (c * 5) 256); [|lia].
  cbn [andb]. rewrite nth_error_map. do 2 f_equal. lia.
Qed.

(** Whatever the image, a pixel count other than 256 * 256 makes the
    loop body raise [ValueError], in [np.dot] or in [reshape]. *)
Lemma load_gray_wrong_size (id : Z) (path : str) (im : Image) :
  df_at facedb "fullpath" id = Ok (Pandas.Str path) ->
  image_open path = Ok im ->
  List.length (im_getdata im) <> 256 * 256 ->
  load_gray fdot facedb image_open id = Raise ValueError.
Proof.
  intros Hdf Hop Hn. unfold load_gray. rewrite Hdf. cbn [bind].
  rewrite Hop. cbn [bind]. unfold np_array_getdata, np_dot.
  set (n := List.length (im_getdata im)) in *.
  assert (forall d : list float,
             reshape {| shape := [n]; data := d |} [256; 256] = Raise ValueError)
    as Hre.
  { intros d. unfold reshape, size. cbn [shape prod_shape fold_right].
    destruct (Nat.eqb_spec (n * 1) (256 * (256 * 1))); [lia | reflexivity]. }
  assert (forall d : list float,
             reshape {| shape := []; data := d |} [256; 256] = Raise ValueError)
    as Hre0 by (intros d; reflexivity).
  destruct ((im_bands im =? 1) || (n =? 0)); cbn [shape data rev app].
  - destruct (n =? List.length rgb_weights); [|reflexivity].
    cbn [bind]. now rewrite Hre0.
  - destruct (im_bands im =? List.length rgb_weights); [|reflexivity].
    cbn [bind]. now rewrite Hre.
Qed.

(** An image whose mode has not three bands makes the loop body raise
    [ValueError], whatever its pixel count. *)
Lemma load_gray_wrong_bands (id : Z) (path : str) (im : Image) :
  df_at facedb "fullpath" id = Ok (Pandas.Str path) ->
  image_open path = Ok im ->
  im_bands im <> 3 ->
  load_gray fdot facedb image_open id = Raise ValueError.
Proof.
  intros Hdf Hop Hb. unfold load_gray. rewrite Hdf. cbn [bind].
  rewrite Hop. cbn [bind]. unfold np_array_getdata, np_dot.
  destruct ((im_bands im =? 1) || (List.length (im_getdata im) =? 0));
    cbn [shape data rev app].
  - destruct (List.length (im_getdata im) =? List.length rgb_weights);
      reflexivity.
  - destruct (Nat.eqb_spec (im_bands im) (List.length rgb_weights)) as [E|_];
      [cbn in E; congruence | reflexivity].
Qed.

(** [np.dot] on the pixels of a three-band image: one value per pixel,
    the sum of products of the pixel with the weights. *)
Lemma np_dot_pixels (im : Image) :
  image_wf im -> im_bands im = 3 -> List.length (im_getdata im) <> 0 ->
  np_dot fdot (np_array_getdata im) rgb_weights =
  Ok {| shape := [List.length (im_getdata im)];
        data := map (fun px => fdot px rgb_weights) (im_getdata im) |}.
Proof.
  intros (Hb1 & Hsz & Hpx) Hb Hn.
  unfold np_array_getdata. rewrite Hb. change (3 =? 1) with false. cbn [orb].
  destruct (Nat.eqb_spec (List.length (im_getdata im)) 0) as [E|_]; [congruence|].
  unfold np_dot. cbn [shape data rev app].
  change (3 =? List.length rgb_weights) with true. cbv iota.
  cbn [prod_shape fold_right]. rewrite Nat.mul_1_r.
  rewrite chunks_concat by (now rewrite Hb in Hpx). reflexivity.
Qed.

(** An image that the loop body loads has three bands and 256 * 256
    pixels. *)
Lemma load_gray_ok_valid (id : Z) (path : str) (im : Image) (g : ndarray float) :
  df_at facedb "fullpath" id = Ok (Pandas.Str path) ->
  image_open path = Ok im ->
  image_wf im ->
  load_gray fdot facedb image_open id = Ok g ->
  valid_id facedb image_open id im.
Proof.
  intros Hdf Hop Hwf Hg. exists path.
  split; [exact Hdf|]. split; [exact Hop|]. split; [exact Hwf|]. split.
  - destruct (Nat.eq_dec (im_bands im) 3) as [E|E]; [exact E|].
    rewrite (load_gray_wrong_bands id path im Hdf Hop E) in Hg. discriminate Hg.
  - destruct (Nat.eq_dec (List.length (im_getdata im)) (256 * 256)) as [E|E];
      [exact E|].
    rewrite (load_gray_wrong_size id path im Hdf Hop E) in Hg. discriminate Hg.
Qed.

(** On a file that opens, the loop body returns or raises [ValueError]. *)
Lemma load_gray_loadable (id : Z) :
  loadable_id facedb image_open id ->
  is_ok (load_gray fdot facedb image_open id) = true \/
  load_gray fdot facedb image_open id = Raise ValueError.
Proof.
  intros (path & im & Hdf & Hop).
  destruct (Nat.eq_dec (List.length (im_getdata im)) (256 * 256)) as [Hn|Hn];
    [|right; now apply (load_gray_wrong_size id path im)].
  unfold load_gray. rewrite Hdf. cbn [bind]. rewrite Hop. cbn [bind].
  destruct (np_dot fdot (np_array_getdata im) rgb_weights) as [gray|e] eqn:Hd.
  - cbn [bind]. unfold reshape.
    destruct (size gray =? prod_shape [256; 256]); [|now right].
    cbn [bind]. left.
    rewrite (slice2_sliced downsample 256 256) by (reflexivity || lia).
    reflexivity.
  - right. cbn [bind]. f_equal. unfold np_dot in Hd.
    destruct (rev (shape (np_array_getdata im))); [discriminate Hd|].
    destruct (n =? List.length rgb_weights); [discriminate Hd|].
    now injection Hd.
Qed.

Lemma mapM_first_error {X Y : Type} (f : X -> result Y) (e : pyerr) (l : list X) :
  (forall x, In x l -> is_ok (f x) = true \/ f x = Raise e) ->
  (exists x, In x l /\ f x = Raise e) ->
  mapM f l = Raise e.
Proof.
  induction l as [|x t IH]; intros Hall (y & Hy & Hf); [destruct Hy|].
  cbn [mapM]. destruct (Hall x (or_introl eq_refl)) as [Hok|Herr].
  - destruct (f x) as [v|e'] eqn:Hx; [|discriminate Hok]. cbn [bind].
    rewrite IH; [reflexivity | |].
    + intros z Hz. apply Hall. now right.
    + destruct Hy as [->|Hy]; [congruence|]. now exists y.
  - now rewrite Herr.
Qed.

Lemma mapM_not_ok {X Y : Type} (f : X -> result Y) (l : list X) (x : X) :
  In x l -> is_ok (f x) = false -> is_ok (mapM f l) = false.
Proof.
  induction l as [|y t IH]; intros Hin Hx; [destruct Hin|].
  cbn [mapM]. destruct (f y) as [v|e] eqn:Hy; [|reflexivity].
  cbn [bind]. destruct Hin as [->|Hin]; [rewrite Hy in Hx; discriminate Hx|].
  specialize (IH Hin Hx). destruct (mapM f t); [discriminate IH | reflexivity].
Qed.

Lemma mapM_Forall2 {X Y : Type} (f : X -> result Y) (P : X -> Y -> Prop)
  (l : list X) :
  (forall x, In x l -> exists y, f x = Ok y /\ P x y) ->
  exists ys, mapM f l = Ok ys /\ Forall2 P l ys.
Proof.
  induction l as [|x t IH]; intros H.
  - exists []. split; [reflexivity | constructor].
  - destruct (H x (or_introl eq_refl)) as (y & Hy & Py).
    destruct IH as (ys & Hys & Pys); [intros z Hz; apply H; now right|].
    exists (y :: ys). split; [|now constructor].
    cbn [mapM]. rewrite Hy. cbn [bind]. rewrite Hys. reflexivity.
Qed.

End PixelLoaderFacts.

(** C9.  For a sequence of identifiers that each name a catalog row with
    a three-band image of 256 * 256 pixels, [get_pixel_data] returns a
    stack with one grid per identifier; every grid is 52 x 52; and the
    [i]-th grid of the stack is the downsampled gray grid of the image of
    the [i]-th identifier. *)
Theorem get_pixel_data_stack
  (float : Type) (fdot : list Z -> list Q -> float)
  (facedb : Pandas.DataFrame) (image_open : str -> result Image)
  (face_ids : list Z) :
  (forall id, In id face_ids -> exists im, valid_id facedb image_open id im) ->
  exists grids stack,
    get_pixel_data fdot facedb image_open face_ids = Ok stack /\
    shape stack = match face_ids with
                  | [] => [0]
                  | _ :: _ => [List.length face_ids; 52; 52]
                  end /\
    List.length grids = List.length face_ids /\
    Forall2 (fun id g => exists im, valid_id facedb image_open id im /\
                                    gray_grid_of fdot im g)
            face_ids grids /\
    forall i g, nth_error grids i = Some g ->
                index0 stack i = Ok g /\ shape g = [52; 52].
Proof.
  intros Hvalid.
  destruct (mapM_Forall2 (load_gray fdot facedb image_open)
              (fun id g => exists im, valid_id facedb image_open id im /\
                                      gray_grid_of fdot im g) face_ids)
    as (grids & Hm & Hf2).
  { intros id Hid. destruct (Hvalid id Hid) as [im Him].
    exists (sliced 5 256 256 (gray_image_of fdot im)). split.
    - now apply load_gray_valid.
    - exists im. split; [exact Him|]. apply gray_grid_of_sliced.
      now destruct Him as (? & ? & ? & ? & ? & ?). }
  assert (Forall (fun g => shape g = [52; 52] /\ array_wf g) grids) as Hall.
  { clear - Hf2. induction Hf2 as [|id g ids gs (im & _ & Hs & Hw & _) _ IH];
      constructor; auto. }
  pose proof (Forall2_length Hf2) as Hlen.
  exists grids. unfold get_pixel_data. rewrite Hm. cbn [bind].
  destruct grids as [|g0 gs] eqn:Eg.
  - destruct face_ids; [|discriminate Hlen].
    eexists. split; [reflexivity|]. split; [reflexivity|].
    split; [reflexivity|]. split; [constructor|].
    intros i g Hi. destruct i; discriminate Hi.
  - rewrite <- Eg in *.
    destruct (stack_index0 grids [52; 52] 0 g0 Hall) as (stack & Hst & Hsh & _ & _);
      [now rewrite Eg|].
    exists stack. split; [exact Hst|]. split.
    + rewrite Hsh, <- Hlen. destruct face_ids; [|reflexivity].
      rewrite Eg in Hlen. discriminate Hlen.
    + split; [now symmetry|]. split; [exact Hf2|].
      intros i g Hi.
      destruct (stack_index0 grids [52; 52] i g Hall Hi)
        as (stack' & Hst' & _ & _ & Hidx).
      rewrite Hst in Hst'. injection Hst' as <-. split; [exact Hidx|].
      rewrite Forall_forall in Hall.
      now destruct (Hall g (nth_error_In _ _ Hi)).
Qed.

(** C7.  When an identifier of the sequence names an image whose pixel
    count is not 256 * 256, the loop body raises [ValueError] for it and
    [get_pixel_data] returns nothing; when every file of the sequence
    opens, [get_pixel_data] raises that [ValueError]. *)
Theorem get_pixel_data_wrong_size
  (float : Type) (fdot : list Z -> list Q -> float)
  (facedb : Pandas.DataFrame) (image_open : str -> result Image)
  (face_ids : list Z) (id : Z) (path : str) (im : Image) :
  In id face_ids ->
  df_at facedb "fullpath" id = Ok (Pandas.Str path) ->
  image_open path = Ok im ->
  List.length (im_getdata im) <> 256 * 256 ->
  load_gray fdot facedb image_open id = Raise ValueError /\
  is_ok (get_pixel_data fdot facedb image_open face_ids) = false /\
  ((forall id', In id' face_ids -> loadable_id facedb image_open id') ->
   get_pixel_data fdot facedb image_open face_ids = Raise ValueError).
Proof.
  intros Hin Hdf Hop Hn.
  pose proof (load_gray_wrong_size fdot facedb image_open id path im Hdf Hop Hn)
    as Herr.
  split; [exact Herr|]. split.
  - unfold get_pixel_data.
    pose proof (mapM_not_ok (load_gray fdot facedb image_open) face_ids id Hin)
      as Hno.
    rewrite Herr in Hno. specialize (Hno eq_refl).
    destruct (mapM (load_gray fdot facedb image_open) face_ids);
      [discriminate Hno | reflexivity].
  - intros Hall. unfold get_pixel_data.
    rewrite (mapM_first_error (load_gray fdot facedb image_open) ValueError face_ids).
    + reflexivity.
    + intros x Hx. apply load_gray_loadable, Hall, Hx.
    + now exists id.
Qed.

Lemma sample_image_valid (id : Z) (path : str) (im : Image) :
  df_at sample_facedb "fullpath" id = Ok (Pandas.Str path) ->
  sample_open path = Ok im ->
  im_bands im = 3 ->
  im_getdata im = repeat [200; 100; 50]%Z (256 * 256) ->
  List.length (im_getdata im) = im_width im * im_height im ->
  valid_id sample_facedb sample_open id im.
Proof.
  intros Hdf Hop Hb Hd Hsz. exists path.
  split; [exact Hdf|]. split; [exact Hop|]. split; [|split; [exact Hb|]].
  - split; [rewrite Hb; lia|]. split; [exact Hsz|].
    rewrite Hd, Hb. apply Forall_forall. intros px Hpx.
    apply repeat_spec in Hpx. now subst px.
  - rewrite Hd. apply repeat_length.
Qed.

Lemma sample_image_valid_0 : valid_id sample_facedb sample_open 0 sample_image.
Proof.
  apply (sample_image_valid 0 (lit "/srv/data/generated.photos/a_0000001_b.jpg"));
    [reflexivity | reflexivity | reflexivity | reflexivity |].
  cbn [sample_image im_getdata im_width im_height]. apply repeat_length.
Qed.

Lemma wide_image_valid_1 : valid_id sample_facedb sample_open 1 wide_image.
Proof.
  apply (sample_image_valid 1 (lit "/srv/data/generated.photos/c_0000002.jpg"));
    [reflexivity | reflexivity | reflexivity | reflexivity |].
  cbn [wide_image im_getdata im_width im_height]. rewrite repeat_length.
  reflexivity.
Qed.

Lemma sample_ids_valid (id : Z) :
  In id [0; 1; 0]%Z -> exists im, valid_id sample_facedb sample_open id im.
Proof.
  intros [<-|[<-|[<-|[]]]].
  - exists sample_image. exact sample_image_valid_0.
  - exists wide_image. exact wide_image_valid_1.
  - exists sample_image. exact sample_image_valid_0.
Qed.

Lemma get_pixel_data_stack_witness :
  exists grids stack,
    get_pixel_data exact_dot sample_facedb sample_open [0; 1; 0]%Z = Ok stack /\
    shape stack = [List.length [0; 1; 0]%Z; 52; 52] /\
    List.length grids = List.length [0; 1; 0]%Z /\
    Forall2 (fun id g => exists im, valid_id sample_facedb sample_open id im /\
                                    gray_grid_of exact_dot im g)
            [0; 1; 0]%Z grids /\
    forall i g, nth_error grids i = Some g ->
                index0 stack i = Ok g /\ shape g = [52; 52].
Proof.
  exact (get_pixel_data_stack Q exact_dot sample_facedb sample_open [0; 1; 0]%Z
           sample_ids_valid).
Defined.

(** The size of the image is not checked, only its pixel count: the
    512 x 128 image of the second row is loaded like a 256 x 256 one. *)
Example load_gray_size_not_validated :
  load_gray exact_dot sample_facedb sample_open 1 =
  Ok (sliced 5 256 256 (gray_image_of exact_dot wide_image)).
Proof. apply load_gray_valid. exact wide_image_valid_1. Qed.

Lemma get_pixel_data_wrong_size_witness :
  In 2%Z [0; 2]%Z /\
  List.length (im_getdata tiny_image) <> 256 * 256 /\
  load_gray exact_dot sample_facedb sample_open 2 = Raise ValueError /\
  is_ok (get_pixel_data exact_dot sample_facedb sample_open [0; 2]%Z) = false /\
  ((forall id', In id' [0; 2]%Z -> loadable_id sample_facedb sample_open id') ->
   get_pixel_data exact_dot sample_facedb sample_open [0; 2]%Z = Raise ValueError).
Proof.
  split; [right; left; reflexivity|].
  split; [cbn [tiny_image im_getdata List.length]; lia|].
  apply (get_pixel_data_wrong_size Q exact_dot sample_facedb sample_open
           [0; 2]%Z 2%Z (lit "/srv/data/generated.photos/d_0000003_e.jpg")
           tiny_image).
  - right; left; reflexivity.
  - reflexivity.
  - reflexivity.
  - cbn [tiny_image im_getdata List.length]. lia.
Defined.

(** C2.  For an image that [get_pixel_data] loads, [np.dot] computes one
    gray value per pixel, and the value of the pixel [(R, G, B)] is the
    float64 dot product of [(R, G, B)] with the weights
    [(0.2989, 0.5870, 0.1140)]; the grid the loop body returns holds the
    values of every fifth pixel of every fifth row.  Where the float64
    dot product is within a tolerance of the exact weighted sum, so is
    every gray value. *)
Theorem gray_value_weighted_sum
  (float : Type) (fdot : list Z -> list Q -> float)
  (value : float -> Q) (tol : Q)
  (facedb : Pandas.DataFrame) (image_open : str -> result Image)
  (id : Z) (path : str) (im : Image) :
  df_at facedb "fullpath" id = Ok (Pandas.Str path) ->
  image_open path = Ok im ->
  image_wf im ->
  (forall R G B, In [R; G; B] (im_getdata im) ->
     (Qabs (value (fdot [R; G; B] [2989 # 10000; 5870 # 10000; 1140 # 10000])
            - weighted_sum R G B) <= tol)%Q) ->
  (forall face_ids stack,
      In id face_ids ->
      get_pixel_data fdot facedb image_open face_ids = Ok stack ->
      is_ok (load_gray fdot facedb image_open id) = true) /\
  (forall g,
      load_gray fdot facedb image_open id = Ok g ->
      exists gray,
        np_dot fdot (np_array_getdata im) rgb_weights = Ok gray /\
        List.length (data gray) = 256 * 256 /\
        (forall k, k < 256 * 256 ->
           exists R G B v,
             nth_error (im_getdata im) k = Some [R; G; B] /\
             nth_error (data gray) k = Some v /\
             v = fdot [R; G; B] [2989 # 10000; 5870 # 10000; 1140 # 10000]%Q /\
             (Qabs (value v - weighted_sum R G B) <= tol)%Q) /\
        (forall r c, r < 52 -> c < 52 ->
           get2 g r c = nth_error (data gray) (5 * r * 256 + 5 * c) /\
           get2 g r c <> None)).
Proof.
  intros Hdf Hop Hwf Htol. split.
  - intros face_ids stack Hin Hst. unfold get_pixel_data in Hst.
    destruct (load_gray fdot facedb image_open id) as [g|e] eqn:Hg;
      [reflexivity|].
    pose proof (mapM_not_ok (load_gray fdot facedb image_open) face_ids id Hin)
      as Hno.
    rewrite Hg in Hno. specialize (Hno eq_refl).
    destruct (mapM (load_gray fdot facedb image_open) face_ids);
      [discriminate Hno | discriminate Hst].
  - intros g Hg.
    pose proof (load_gray_ok_valid fdot facedb image_open id path im g
                  Hdf Hop Hwf Hg) as Hv.
    pose proof (load_gray_valid fdot facedb image_open id im Hv) as Hg'.
    rewrite Hg in Hg'. injection Hg' as Eg. subst g.
    destruct Hv as (path' & _ & _ & _ & Hb & Hn).
    exists {| shape := [List.length (im_getdata im)];
              data := map (fun px => fdot px rgb_weights) (im_getdata im) |}.
    split; [apply np_dot_pixels; [exact Hwf | exact Hb | lia]|].
    cbn [data]. split; [now rewrite length_map|]. split.
    + intros k Hk.
      destruct (nth_error (im_getdata im) k) as [px|] eqn:Epx;
        [|apply nth_error_None in Epx; lia].
      destruct Hwf as (_ & _ & Hpx). rewrite Forall_forall in Hpx.
      pose proof (Hpx px (nth_error_In _ _ Epx)) as Hlen. rewrite Hb in Hlen.
      destruct px as [|R [|G [|B [|x px]]]]; try discriminate Hlen.
      exists R, G, B, (fdot [R; G; B] rgb_weights).
      split; [reflexivity|]. split; [now rewrite nth_error_map, Epx|].
      split; [reflexivity|].
      apply Htol. exact (nth_error_In _ _ Epx).
    + intros r c Hr Hc.
      destruct (gray_grid_of_sliced fdot im Hn) as (_ & _ & Hgrid).
      destruct (Hgrid r c Hr Hc) as [E Hsome].
      split; [|exact Hsome]. rewrite E. symmetry. apply nth_error_map.
Qed.

(** The exact weighted sum is within any tolerance of itself. *)
Lemma exact_dot_weighted_sum (R G B : Z) :
  (Qabs (exact_dot [R; G; B] [2989 # 10000; 5870 # 10000; 1140 # 10000]
         - weighted_sum R G B) <= 0)%Q.
Proof.
  assert ((exact_dot [R; G; B] [2989 # 10000; 5870 # 10000; 1140 # 10000]
           - weighted_sum R G B == 0)%Q) as E.
  { unfold exact_dot, weighted_sum. cbn [combine map fold_right fst snd]. ring. }
  rewrite E. apply Qle_refl.
Qed.

Lemma sample_image_wf : image_wf sample_image.
Proof. now destruct sample_image_valid_0 as (p & _ & _ & W & _). Qed.

Lemma gray_value_weighted_sum_witness :
  df_at sample_facedb "fullpath" 0 =
    Ok (Pandas.Str (lit "/srv/data/generated.photos/a_0000001_b.jpg")) /\
  sample_open (lit "/srv/data/generated.photos/a_0000001_b.jpg") = Ok sample_image /\
  image_wf sample_image /\
  load_gray exact_dot sample_facedb sample_open 0 =
    Ok (sliced 5 256 256 (gray_image_of exact_dot sample_image)) /\
  exists gray,
    np_dot exact_dot (np_array_getdata sample_image) rgb_weights = Ok gray /\
    List.length (data gray) = 256 * 256 /\
    (forall k, k < 256 * 256 ->
       exists R G B v,
         nth_error (im_getdata sample_image) k = Some [R; G; B] /\
         nth_error (data gray) k = Some v /\
         v = exact_dot [R; G; B] [2989 # 10000; 5870 # 10000; 1140 # 10000]%Q /\
         (Qabs (v - weighted_sum R G B) <= 0)%Q) /\
    (forall r c, r < 52 -> c < 52 ->
       get2 (sliced 5 256 256 (gray_image_of exact_dot sample_image)) r c =
         nth_error (data gray) (5 * r * 256 + 5 * c) /\
       get2 (sliced 5 256 256 (gray_image_of exact_dot sample_image)) r c <> None).
Proof.
  pose proof (load_gray_valid exact_dot sample_facedb sample_open 0 sample_image
                sample_image_valid_0) as Hg.
  split; [reflexivity|]. split; [reflexivity|].
  split; [exact sample_image_wf|]. split; [exact Hg|].
  exact (proj2 (gray_value_weighted_sum Q exact_dot (fun q => q) 0
                  sample_facedb sample_open 0
                  (lit "/srv/data/generated.photos/a_0000001_b.jpg") sample_image
                  eq_refl eq_refl sample_image_wf
                  (fun R G B _ => exact_dot_weighted_sum R G B))
               _ Hg).
Defined.

(** ** The metadata reader *)

Lemma pprint_not_bound :
  resolve_global notebook_namespace "pprint" = Raise NameError.
Proof. vm_compute. reflexivity. Qed.

(** Had a cell run [import pprint], the reader would return the
    formatted attributes. *)
Lemma read_metadata_with_pprint
  (open_file : str -> result str) (json_load : str -> result json)
  (pformat : json -> str) (facedb : Pandas.DataFrame) (id : Z)
  (path f : str) (data attributes : json) :
  df_at facedb "jsonfile" id = Ok (Pandas.Str path) ->
  open_file path = Ok f ->
  json_load f = Ok data ->
  subscript data (lit "faceAttributes") = Ok attributes ->
  read_metadata open_file json_load pformat ("pprint"%string :: notebook_namespace)
    facedb id = Ok (pformat attributes).
Proof.
  intros Hdf Hop Hj Hs. unfold read_metadata.
  rewrite Hdf. cbn [bind]. rewrite Hop. cbn [bind]. rewrite Hj. cbn [bind].
  assert (resolve_global ("pprint"%string :: notebook_namespace) "pprint" = Ok tt)
    as -> by reflexivity.
  cbn [bind]. rewrite Hs. reflexivity.
Qed.

(** C10.  In the namespace of the notebook, [read_metadata] never returns
    a value, and a call whose metadata file opens and parses raises
    [NameError]: the name [pprint] is bound by no cell and is not a
    built-in. *)
Theorem read_metadata_name_error
  (open_file : str -> result str) (json_load : str -> result json)
  (pformat : json -> str) (facedb : Pandas.DataFrame) (id : Z) :
  (forall v, read_metadata open_file json_load pformat notebook_namespace
               facedb id <> Ok v) /\
  (forall path f data,
      df_at facedb "jsonfile" id = Ok (Pandas.Str path) ->
      open_file path = Ok f ->
      json_load f = Ok data ->
      read_metadata open_file json_load pformat notebook_namespace facedb id =
      Raise NameError).
Proof.
  split.
  - intros v. unfold read_metadata. rewrite pprint_not_bound.
    destruct (df_at facedb "jsonfile" id) as [[path|]|e]; cbn [bind];
      try discriminate.
    destruct (open_file path) as [f|e]; cbn [bind]; try discriminate.
    destruct (json_load f) as [data|e]; cbn [bind]; discriminate.
  - intros path f data Hdf Hop Hj. unfold read_metadata.
    rewrite Hdf. cbn [bind]. rewrite Hop. cbn [bind]. rewrite Hj. cbn [bind].
    rewrite pprint_not_bound. reflexivity.
Qed.

Lemma read_metadata_name_error_witness :
  df_at sample_facedb "jsonfile" 1 =
    Ok (Pandas.Str (lit "/srv/data/generated.photos_metadata/c_0000002.json")) /\
  read_metadata sample_open_file sample_json_load sample_pformat
    notebook_namespace sample_facedb 1 = Raise NameError.
Proof.
  split; [reflexivity|].
  apply (proj2 (read_metadata_name_error sample_open_file sample_json_load
                  sample_pformat sample_facedb 1)
           (lit "/srv/data/generated.photos_metadata/c_0000002.json")
           (lit "{'faceAttributes': {'age': 30}}")
           (JDict [(lit "faceAttributes", JDict [(lit "age", JNum (lit "30"))])]));
    reflexivity.
Defined.



(** * Further properties *)

(** ** The catalog, for any directory argument *)

Section CatalogRows.

Import Pandas.

Variable nd : char -> bool.

Lemma create_facedb_inv (fs : FileSystem) (dt : dtype) (dir : str) (db : DataFrame) :
  create_facedb nd fs dt dir = Ok db ->
  Glob.glob fs (dir ++ lit "/*.jpg") <> [] /\
  db = catalog_of nd (Glob.glob fs (dir ++ lit "/*.jpg")).
Proof.
  intros H. destruct (Glob.glob fs (dir ++ lit "/*.jpg")) as [|p l] eqn:E.
  - rewrite (create_facedb_no_paths nd fs dt dir E) in H. discriminate H.
  - split; [discriminate|].
    pose proof (create_facedb_columns nd fs dt dir) as Hc. cbv zeta in Hc.
    rewrite E in Hc. rewrite Hc in H by discriminate.
    injection H as <-. reflexivity.
Qed.

Lemma in_range_dec (n : nat) (id : Z) :
  ((0 <=? id)%Z && (id <? Z.of_nat n)%Z = true <-> in_range n id).
Proof. unfold in_range. rewrite andb_true_iff, Z.leb_le, Z.ltb_lt. tauto. Qed.

Lemma series_getitem_map {X : Type} (f : X -> cell) (l : list X) (d : X) (id : Z) :
  (in_range (List.length l) id ->
   series_getitem (object_series (map f l)) id = Ok (f (nth (Z.to_nat id) l d))) /\
  (~ in_range (List.length l) id ->
   series_getitem (object_series (map f l)) id = Raise KeyError).
Proof.
  unfold series_getitem. cbn [object_series s_values]. rewrite length_map.
  destruct ((0 <=? id)%Z && (id <? Z.of_nat (List.length l))%Z) eqn:E.
  - apply in_range_dec in E. split; [|tauto]. intros _. f_equal.
    rewrite (nth_indep _ NaN (f d)) by (rewrite length_map; unfold in_range in E; lia).
    apply map_nth.
  - split; [|reflexivity]. intros H. apply in_range_dec in H. congruence.
Qed.

Lemma catalog_fullpath (paths : list str) (id : Z) :
  (in_range (List.length paths) id ->
   df_at (catalog_of nd paths) "fullpath" id = Ok (Str (nth (Z.to_nat id) paths []))) /\
  (~ in_range (List.length paths) id ->
   df_at (catalog_of nd paths) "fullpath" id = Raise KeyError).
Proof. exact (series_getitem_map Str paths [] id). Qed.

Lemma catalog_filename (paths : list str) (id : Z) :
  (in_range (List.length paths) id ->
   df_at (catalog_of nd paths) "filename" id =
   Ok (Str (snd (PyStr.rpartition_sep (nth (Z.to_nat id) paths []))))) /\
  (~ in_range (List.length paths) id ->
   df_at (catalog_of nd paths) "filename" id = Raise KeyError).
Proof.
  exact (series_getitem_map (fun p => Str (snd (PyStr.rpartition_sep p))) paths [] id).
Qed.

Lemma catalog_faceid (paths : list str) (id : Z) :
  (in_range (List.length paths) id ->
   df_at (catalog_of nd paths) "faceid" id =
   Ok (extract_cell nd (Str (snd (PyStr.rpartition_sep (nth (Z.to_nat id) paths [])))))) /\
  (~ in_range (List.length paths) id ->
   df_at (catalog_of nd paths) "faceid" id = Raise KeyError).
Proof.
  exact (series_getitem_map
           (fun p => extract_cell nd (Str (snd (PyStr.rpartition_sep p)))) paths [] id).
Qed.

Lemma catalog_jsonfile (paths : list str) (id : Z) :
  (in_range (List.length paths) id ->
   df_at (catalog_of nd paths) "jsonfile" id =
   Ok (Str (PyStr.replace (lit ".jpg") (lit ".json")
              (PyStr.replace segment_photos segment_metadata
                 (nth (Z.to_nat id) paths []))))) /\
  (~ in_range (List.length paths) id ->
   df_at (catalog_of nd paths) "jsonfile" id = Raise KeyError).
Proof.
  exact (series_getitem_map
           (fun p => Str (PyStr.replace (lit ".jpg") (lit ".json")
                            (PyStr.replace segment_photos segment_metadata p)))
           paths [] id).
Qed.

Lemma catalog_other_column (paths : list str) (key : string) (id : Z) :
  ~ In key ["fullpath"; "filename"; "faceid"; "jsonfile"]%string ->
  df_at (catalog_of nd paths) key id = Raise KeyError.
Proof.
  intros H. unfold df_at, catalog_of. cbn [getitem].
  repeat match goal with
         | |- context [String.eqb ?k key] =>
             destruct (String.eqb_spec k key) as [<-|_];
             [exfalso; apply H; cbn; tauto|]
         end.
  reflexivity.
Qed.

(** A row of the catalog is looked up by its path. *)
Lemma catalog_row_of_fullpath (paths : list str) (id : Z) (p : str) :
  df_at (catalog_of nd paths) "fullpath" id = Ok (Str p) ->
  in_range (List.length paths) id /\ nth (Z.to_nat id) paths [] = p /\ In p paths.
Proof.
  intros H. destruct (catalog_fullpath paths id) as [Hin Hout].
  assert (in_range (List.length paths) id) as Hr.
  { destruct (in_range_dec (List.length paths) id) as [_ _].
    destruct ((0 <=? id)%Z && (id <? Z.of_nat (List.length paths))%Z) eqn:E.
    - now apply in_range_dec.
    - rewrite Hout in H; [discriminate H|].
      intros C. apply in_range_dec in C. congruence. }
  split; [exact Hr|]. rewrite (Hin Hr) in H. injection H as H.
  split; [exact H|]. rewrite <- H. apply nth_In. unfold in_range in Hr. lia.
Qed.

End CatalogRows.


Section ExtensionFacts.

Import PyStr.

Lemma path_join_suffix (x d n : str) :
  (exists r, n = r ++ x) -> exists r, Glob.path_join d n = r ++ x.
Proof.
  intros [r ->]. unfold Glob.path_join.
  destruct (startswith (lit "/") (r ++ x)); [now exists r|].
  destruct (str_eqb d [] || endswith (lit "/") d).
  - exists (d ++ r). now rewrite app_assoc.
  - exists (d ++ lit "/" ++ r). now rewrite <- !app_assoc.
Qed.

(** Every path [glob] returns for [dir/*.jpg] ends in [".jpg"]. *)
Lemma glob_paths_end_jpg (fs : FileSystem) (dir p : str) :
  In p (Glob.glob fs (dir ++ lit "/*.jpg")) -> exists r, p = r ++ lit ".jpg".
Proof.
  assert (forall d n, In n (Glob.glob1_star_jpg fs d) -> exists r, n = r ++ lit ".jpg")
    as Hn.
  { intros d n Hin. unfold Glob.glob1_star_jpg in Hin.
    apply filter_In in Hin as [_ Hm]. now apply endswith_iff in Hm. }
  unfold Glob.glob. destruct (Glob.path_split (dir ++ lit "/*.jpg")) as [d b].
  destruct (str_eqb d []); [apply Hn|].
  intros Hin. apply in_flat_map in Hin as (d' & _ & Hin).
  apply in_map_iff in Hin as (n & <- & Hin).
  apply path_join_suffix. exact (Hn d' n Hin).
Qed.

Lemma replaced_all_nil (old new r : str) :
  old <> [] -> replaced_all old new [] r -> r = [].
Proof.
  intros Hne H. inversion H as [s Hno | a b r0 Hl Hb E]; [reflexivity|].
  destruct a; [|discriminate E]. destruct old; [congruence | discriminate E].
Qed.

(** Replacing the photo directory segment leaves a final [".jpg"] in
    place: the segment ends with a separator, the extension has none. *)
Lemma segment_keeps_jpg (s r : str) :
  replaced_all segment_photos segment_metadata s r ->
  (exists x, s = x ++ lit ".jpg") -> exists y, r = y ++ lit ".jpg".
Proof.
  induction 1 as [s Hno | a b r Hl Hb IH]; intros [x E]; [now exists x|].
  rewrite app_assoc in E.
  destruct (suffix_of_app _ _ _ _ E) as [[v0 Hv] | (l & Hne & Hw & Hu)].
  - destruct IH as [y ->]; [now exists v0|].
    exists (a ++ segment_metadata ++ y). now rewrite <- !app_assoc.
  - exfalso. apply (f_equal (@rev char)) in Hu.
    rewrite !rev_app_distr in Hu.
    destruct l as [|c1 [|c2 [|c3 [|c4 [|c5 l]]]]]; cbn in Hw;
      try congruence; inversion Hw; subst; cbn in Hu; discriminate Hu.
Qed.

(** Replacing [".jpg"] turns a final [".jpg"] into [".json"]: the
    extension cannot overlap an earlier occurrence of itself. *)
Lemma jpg_becomes_json (s r : str) :
  replaced_all (lit ".jpg") (lit ".json") s r ->
  (exists x, s = x ++ lit ".jpg") -> exists y, r = y ++ lit ".json".
Proof.
  induction 1 as [s Hno | a b r Hl Hb IH]; intros [x E].
  - exfalso. apply (Hno x). exists []. now rewrite app_nil_r.
  - rewrite app_assoc in E.
    destruct (suffix_of_app _ _ _ _ E) as [[v0 Hv] | (l & Hne & Hw & Hu)].
    + destruct IH as [y ->]; [now exists v0|].
      exists (a ++ lit ".json" ++ y). now rewrite <- !app_assoc.
    + destruct b as [|b1 b].
      * apply replaced_all_nil in Hb; [|discriminate]. subst r.
        exists a. reflexivity.
      * exfalso. apply (f_equal (@rev char)) in Hu.
        rewrite !rev_app_distr in Hu.
        destruct l as [|c1 [|c2 [|c3 [|c4 [|c5 l]]]]]; cbn in Hw;
          try congruence; inversion Hw; subst; cbn in Hu; discriminate Hu.
Qed.

End ExtensionFacts.

(** X1.  [create_facedb] returns a catalog exactly when [glob] finds at
    least one path, whatever the directory argument. *)
Theorem create_facedb_ok_iff
  (nd : char -> bool) (fs : FileSystem) (dt : Pandas.dtype) (dir : str) :
  is_ok (create_facedb nd fs dt dir) = true <->
  Glob.glob fs (dir ++ lit "/*.jpg") <> [].
Proof.
  split.
  - intros H. destruct (create_facedb nd fs dt dir) as [db|e] eqn:E;
      [|discriminate H].
    now destruct (create_facedb_inv nd fs dt dir db E).
  - intros H. pose proof (create_facedb_columns nd fs dt dir) as Hc.
    cbv zeta in Hc. now rewrite (Hc H).
Qed.

(** X2.  A catalog that [create_facedb] returns has the four columns
    [fullpath], [filename], [faceid] and [jsonfile], each with one cell
    per path found, at least one: a lookup [db[key][id]] succeeds for
    these columns when [0 <= id < n] and raises [KeyError] for any other
    label or column. *)
Theorem catalog_lookup_bounds
  (nd : char -> bool)
  (fs : FileSystem) (dt : Pandas.dtype) (dir : str) (db : Pandas.DataFrame) :
  create_facedb nd fs dt dir = Ok db ->
  let n := List.length (Glob.glob fs (dir ++ lit "/*.jpg")) in
  1 <= n /\
  (forall key id,
      In key ["fullpath"; "filename"; "faceid"; "jsonfile"]%string ->
      (in_range n id -> is_ok (df_at db key id) = true) /\
      (~ in_range n id -> df_at db key id = Raise KeyError)) /\
  (forall key id,
      ~ In key ["fullpath"; "filename"; "faceid"; "jsonfile"]%string ->
      df_at db key id = Raise KeyError).
Proof.
  intros H n. destruct (create_facedb_inv nd fs dt dir db H) as [Hne ->].
  split; [|split].
  - subst n. destruct (Glob.glob fs (dir ++ lit "/*.jpg")); [congruence|].
    simpl. lia.
  - intros key id [<-|[<-|[<-|[<-|[]]]]].
    + destruct (catalog_fullpath nd (Glob.glob fs (dir ++ lit "/*.jpg")) id) as [A B].
      split; [intros R; now rewrite (A R) | exact B].
    + destruct (catalog_filename nd (Glob.glob fs (dir ++ lit "/*.jpg")) id) as [A B].
      split; [intros R; now rewrite (A R) | exact B].
    + destruct (catalog_faceid nd (Glob.glob fs (dir ++ lit "/*.jpg")) id) as [A B].
      split; [intros R; now rewrite (A R) | exact B].
    + destruct (catalog_jsonfile nd (Glob.glob fs (dir ++ lit "/*.jpg")) id) as [A B].
      split; [intros R; now rewrite (A R) | exact B].
  - intros key id Hk. now apply catalog_other_column.
Qed.

(** X3.  In every row of a catalog that [create_facedb] returns, the
    file name is the last component of the full path (the full path is a
    head that is empty or ends with the separator, followed by the file
    name, which has no separator), and the face id is the leftmost
    group of seven decimal digits of the file name, whatever the script
    of the digits, or missing when the name has none. *)
Theorem catalog_row_filename
  (nd : char -> bool)
  (fs : FileSystem) (dt : Pandas.dtype) (dir : str) (db : Pandas.DataFrame)
  (id : Z) (p : str) :
  create_facedb nd fs dt dir = Ok db ->
  df_at db "fullpath" id = Ok (Pandas.Str p) ->
  In p (Glob.glob fs (dir ++ lit "/*.jpg")) /\
  exists head name c,
    df_at db "filename" id = Ok (Pandas.Str name) /\
    df_at db "faceid" id = Ok c /\
    p = head ++ name /\
    (head = [] \/ exists h, head = h ++ lit "/") /\
    no_sep name = true /\
    faceid_of nd name c.
Proof.
  intros H Hp. destruct (create_facedb_inv nd fs dt dir db H) as [_ ->].
  destruct (catalog_row_of_fullpath nd _ id p Hp) as (Hr & Hn & Hin).
  split; [exact Hin|].
  destruct (PyStr.rpartition_sep p) as [[h sep] t] eqn:Epart.
  destruct (rpartition_sep_parts p h sep t Epart) as (Es & Hno & Hsep).
  exists (h ++ sep), t, (Pandas.extract_cell nd (Pandas.Str t)).
  split; [|split; [|split; [|split; [|split]]]].
  - rewrite (proj1 (catalog_filename nd _ id) Hr), Hn, Epart. reflexivity.
  - rewrite (proj1 (catalog_faceid nd _ id) Hr), Hn, Epart. reflexivity.
  - now rewrite <- app_assoc.
  - destruct Hsep as [-> | [-> ->]]; [right; now exists h | now left].
  - exact Hno.
  - unfold faceid_of, Pandas.extract_cell.
    pose proof (search_faceid_spec nd t) as Hs.
    destruct (Regex.search_faceid nd t); exact Hs.
Qed.

(** X4.  In every row of a catalog that [create_facedb] returns, the full
    path ends in [".jpg"] and the metadata path is a string that ends in
    [".json"]. *)
Theorem catalog_extensions
  (nd : char -> bool)
  (fs : FileSystem) (dt : Pandas.dtype) (dir : str) (db : Pandas.DataFrame)
  (id : Z) (p : str) :
  create_facedb nd fs dt dir = Ok db ->
  df_at db "fullpath" id = Ok (Pandas.Str p) ->
  (exists stem, p = stem ++ lit ".jpg") /\
  exists j, df_at db "jsonfile" id = Ok (Pandas.Str j) /\
            exists stem, j = stem ++ lit ".json".
Proof.
  intros H Hp. destruct (create_facedb_inv nd fs dt dir db H) as [_ ->].
  destruct (catalog_row_of_fullpath nd _ id p Hp) as (Hr & Hn & Hin).
  pose proof (glob_paths_end_jpg fs dir p Hin) as Hjpg.
  split; [exact Hjpg|].
  eexists. split; [rewrite (proj1 (catalog_jsonfile nd _ id) Hr), Hn; reflexivity|].
  apply (jpg_becomes_json (PyStr.replace segment_photos segment_metadata p)).
  - apply replace_replaced_all. discriminate.
  - apply (segment_keeps_jpg p); [|exact Hjpg].
    apply replace_replaced_all. discriminate.
Qed.

Lemma create_facedb_sample :
  create_facedb sample_decimal fs_three Pandas.Float64Dtype
    (lit "/srv/data/generated.photos") =
  Ok sample_facedb.
Proof. vm_compute. reflexivity. Qed.

Lemma catalog_lookup_bounds_witness :
  create_facedb sample_decimal fs_three Pandas.Float64Dtype
    (lit "/srv/data/generated.photos") =
    Ok sample_facedb /\
  let n := List.length (Glob.glob fs_three
                          (lit "/srv/data/generated.photos" ++ lit "/*.jpg")) in
  1 <= n /\
  (forall key id,
      In key ["fullpath"; "filename"; "faceid"; "jsonfile"]%string ->
      (in_range n id -> is_ok (df_at sample_facedb key id) = true) /\
      (~ in_range n id -> df_at sample_facedb key id = Raise KeyError)) /\
  (forall key id,
      ~ In key ["fullpath"; "filename"; "faceid"; "jsonfile"]%string ->
      df_at sample_facedb key id = Raise KeyError).
Proof.
  split; [exact create_facedb_sample|].
  exact (catalog_lookup_bounds sample_decimal fs_three Pandas.Float64Dtype
           (lit "/srv/data/generated.photos") sample_facedb create_facedb_sample).
Defined.

Lemma catalog_row_filename_witness :
  df_at sample_facedb "fullpath" 1 =
    Ok (Pandas.Str (lit "/srv/data/generated.photos/c_0000002.jpg")) /\
  In (lit "/srv/data/generated.photos/c_0000002.jpg")
     (Glob.glob fs_three (lit "/srv/data/generated.photos" ++ lit "/*.jpg")) /\
  exists head name c,
    df_at sample_facedb "filename" 1 = Ok (Pandas.Str name) /\
    df_at sample_facedb "faceid" 1 = Ok c /\
    lit "/srv/data/generated.photos/c_0000002.jpg" = head ++ name /\
    (head = [] \/ exists h, head = h ++ lit "/") /\
    no_sep name = true /\
    faceid_of sample_decimal name c.
Proof.
  split; [reflexivity|].
  apply (catalog_row_filename sample_decimal fs_three Pandas.Float64Dtype
           (lit "/srv/data/generated.photos") sample_facedb 1);
    [exact create_facedb_sample | reflexivity].
Defined.

Lemma catalog_extensions_witness :
  df_at sample_facedb "fullpath" 2 =
    Ok (Pandas.Str (lit "/srv/data/generated.photos/d_0000003_e.jpg")) /\
  (exists stem, lit "/srv/data/generated.photos/d_0000003_e.jpg" = stem ++ lit ".jpg") /\
  exists j, df_at sample_facedb "jsonfile" 2 = Ok (Pandas.Str j) /\
            exists stem, j = stem ++ lit ".json".
Proof.
  split; [reflexivity|].
  apply (catalog_extensions sample_decimal fs_three Pandas.Float64Dtype
           (lit "/srv/data/generated.photos") sample_facedb 2);
    [exact create_facedb_sample | reflexivity].
Defined.

(** ** The directory argument *)

Lemma rstrip_sep_length (s : str) :
  List.length (PyStr.rstrip_sep s) <= List.length s.
Proof.
  unfold PyStr.rstrip_sep. rewrite length_rev.
  pose proof (dropwhile_length PyStr.is_sep (rev s)) as H.
  now rewrite length_rev in H.
Qed.

Lemma glob_dirname_shorter (dir : str) :
  forallb PyStr.is_sep dir = false ->
  str_eqb (glob_dirname dir) (dir ++ lit "/*.jpg") = false.
Proof.
  intros Hd. destruct (str_eqb _ _) eqn:E; [|reflexivity].
  apply str_eqb_eq in E. apply (f_equal (@List.length char)) in E.
  rewrite glob_dirname_eq, Hd, length_app in E.
  pose proof (rstrip_sep_length dir). cbn in E. lia.
Qed.

Lemma glob_by_dirname (fs : FileSystem) (dir : str) :
  forallb PyStr.is_sep dir = false ->
  Glob.glob fs (dir ++ lit "/*.jpg") =
  flat_map (fun d => map (Glob.path_join d) (Glob.glob1_star_jpg fs d))
           (if Glob.has_magic (glob_dirname dir)
            then fs_iglob_dirs fs (glob_dirname dir)
            else [glob_dirname dir]).
Proof.
  intros Hd. unfold Glob.glob.
  pose proof (glob_dirname_nonempty dir) as Hne.
  pose proof (glob_dirname_shorter dir Hd) as Hsh.
  unfold glob_dirname in *.
  destruct (Glob.path_split (dir ++ lit "/*.jpg")) as [d b]. cbn [fst] in *.
  destruct (str_eqb d []) eqn:E; [apply str_eqb_eq in E; congruence|].
  now rewrite Hsh.
Qed.

(** X5.  A separator at the end of the directory argument changes
    nothing: for a directory that is not made of separators only,
    [create_facedb(dir + "/")] is [create_facedb(dir)]. *)
Theorem create_facedb_trailing_sep
  (nd : char -> bool) (fs : FileSystem) (dt : Pandas.dtype) (dir : str) :
  forallb PyStr.is_sep dir = false ->
  create_facedb nd fs dt (dir ++ lit "/") = create_facedb nd fs dt dir.
Proof.
  intros Hd.
  assert (forallb PyStr.is_sep (dir ++ lit "/") = false) as Hd'
    by (rewrite forallb_app, Hd; reflexivity).
  assert (glob_dirname (dir ++ lit "/") = glob_dirname dir) as Hg.
  { rewrite !glob_dirname_eq, Hd, Hd'. apply rstrip_sep_snoc. }
  assert (Glob.glob fs ((dir ++ lit "/") ++ lit "/*.jpg") =
          Glob.glob fs (dir ++ lit "/*.jpg")) as Hglob.
  { rewrite !glob_by_dirname by assumption. now rewrite Hg. }
  unfold create_facedb. now rewrite Hglob.
Qed.

Lemma create_facedb_trailing_sep_witness :
  forallb PyStr.is_sep (lit "/srv/data/generated.photos") = false /\
  create_facedb sample_decimal fs_three Pandas.Float64Dtype
    (lit "/srv/data/generated.photos" ++ lit "/") =
  create_facedb sample_decimal fs_three Pandas.Float64Dtype
    (lit "/srv/data/generated.photos").
Proof.
  split; [reflexivity|].
  apply (create_facedb_trailing_sep sample_decimal fs_three Pandas.Float64Dtype
           (lit "/srv/data/generated.photos")).
  reflexivity.
Defined.


(** ** The metadata path of an ordinary photo path *)

(** X6.  For a photo in a directory [parent/generated.photos] whose
    parent path and file stem hold no dot, the metadata path of the
    catalog is [parent/generated.photos_metadata/stem.json]: the
    directory segment and the extension are what is replaced. *)
Theorem catalog_metadata_path
  (nd : char -> bool)
  (fs : FileSystem) (dt : Pandas.dtype) (dir : str) (db : Pandas.DataFrame)
  (id : Z) (parent stem : str) :
  create_facedb nd fs dt dir = Ok db ->
  df_at db "fullpath" id =
    Ok (Pandas.Str (parent ++ segment_photos ++ stem ++ lit ".jpg")) ->
  ~ In (ch ".") parent ->
  ~ In (ch ".") stem ->
  df_at db "jsonfile" id =
    Ok (Pandas.Str (parent ++ segment_metadata ++ stem ++ lit ".json")).
Proof.
  intros H Hp Hparent Hstem.
  destruct (create_facedb_inv nd fs dt dir db H) as [_ ->].
  destruct (catalog_row_of_fullpath nd _ id _ Hp) as (Hr & Hn & _).
  rewrite (proj1 (catalog_jsonfile nd _ id) Hr), Hn. do 2 f_equal.
  rewrite (replace_single segment_photos segment_metadata);
    [|discriminate | now apply segment_leftmost | now apply no_segment_in_plain].
  assert (parent ++ segment_metadata ++ stem ++ lit ".jpg" =
          (parent ++ segment_metadata ++ stem) ++ lit ".jpg" ++ []) as ->
    by (now rewrite <- !app_assoc).
  rewrite (replace_single (lit ".jpg") (lit ".json"));
    [|discriminate | now apply jpg_leftmost_metadata | reflexivity].
  now rewrite <- !app_assoc.
Qed.

Lemma catalog_metadata_path_witness :
  df_at sample_facedb "fullpath" 0 =
    Ok (Pandas.Str (lit "/srv/data" ++ segment_photos ++ lit "a_0000001_b" ++ lit ".jpg")) /\
  ~ In (ch ".") (lit "/srv/data") /\
  ~ In (ch ".") (lit "a_0000001_b") /\
  df_at sample_facedb "jsonfile" 0 =
    Ok (Pandas.Str (lit "/srv/data" ++ segment_metadata ++ lit "a_0000001_b" ++ lit ".json")).
Proof.
  assert (~ In (ch ".") (lit "/srv/data")) as H1 by (cbn; intuition discriminate).
  assert (~ In (ch ".") (lit "a_0000001_b")) as H2 by (cbn; intuition discriminate).
  split; [reflexivity|]. split; [exact H1|]. split; [exact H2|].
  apply (catalog_metadata_path sample_decimal fs_three Pandas.Float64Dtype
           (lit "/srv/data/generated.photos") sample_facedb 0
           (lit "/srv/data") (lit "a_0000001_b"));
    [exact create_facedb_sample | reflexivity | exact H1 | exact H2].
Defined.

(** X7.  For a photo whose full path holds no dot but the one of its
    extension (so its directory is not a [generated.photos] directory),
    the metadata path is the full path with [".jpg"] changed to
    [".json"]: the metadata file is looked for beside the photo. *)
Theorem catalog_metadata_beside_photo
  (nd : char -> bool)
  (fs : FileSystem) (dt : Pandas.dtype) (dir : str) (db : Pandas.DataFrame)
  (id : Z) (base : str) :
  create_facedb nd fs dt dir = Ok db ->
  df_at db "fullpath" id = Ok (Pandas.Str (base ++ lit ".jpg")) ->
  ~ In (ch ".") base ->
  df_at db "jsonfile" id = Ok (Pandas.Str (base ++ lit ".json")).
Proof.
  intros H Hp Hbase.
  destruct (create_facedb_inv nd fs dt dir db H) as [_ ->].
  destruct (catalog_row_of_fullpath nd _ id _ Hp) as (Hr & Hn & _).
  rewrite (proj1 (catalog_jsonfile nd _ id) Hr), Hn. do 2 f_equal.
  rewrite (replace_no_occ segment_photos segment_metadata)
    by now apply no_segment_in_plain.
  assert (base ++ lit ".jpg" = base ++ lit ".jpg" ++ []) as -> by reflexivity.
  rewrite (replace_single (lit ".jpg") (lit ".json"));
    [|discriminate | now apply jpg_leftmost_plain | reflexivity].
  reflexivity.
Qed.

Lemma catalog_metadata_beside_photo_witness :
  create_facedb sample_decimal fs_plain Pandas.Float64Dtype (lit "/srv/photos") =
    Ok (catalog_of sample_decimal [lit "/srv/photos/p_0000007_q.jpg"]) /\
  ~ In (ch ".") (lit "/srv/photos/p_0000007_q") /\
  df_at (catalog_of sample_decimal [lit "/srv/photos/p_0000007_q.jpg"]) "jsonfile" 0 =
    Ok (Pandas.Str (lit "/srv/photos/p_0000007_q" ++ lit ".json")).
Proof.
  assert (create_facedb sample_decimal fs_plain Pandas.Float64Dtype (lit "/srv/photos") =
          Ok (catalog_of sample_decimal [lit "/srv/photos/p_0000007_q.jpg"])) as H
    by (vm_compute; reflexivity).
  assert (~ In (ch ".") (lit "/srv/photos/p_0000007_q")) as Hd
    by (cbn; intuition discriminate).
  split; [exact H|]. split; [exact Hd|].
  apply (catalog_metadata_beside_photo sample_decimal fs_plain Pandas.Float64Dtype
           (lit "/srv/photos") _ 0 (lit "/srv/photos/p_0000007_q"));
    [exact H | reflexivity | exact Hd].
Defined.

(** ** The pixel loader: which images load, and which error comes first *)

Section LoaderFacts.

Context {float : Type}.
Variable fdot : list Z -> list Q -> float.
Variable facedb : Pandas.DataFrame.
Variable image_open : str -> result Image.

Lemma load_gray_right_shape (id : Z) (path : str) (im : Image) :
  df_at facedb "fullpath" id = Ok (Pandas.Str path) ->
  image_open path = Ok im ->
  im_bands im = 3 ->
  List.length (im_getdata im) = 256 * 256 ->
  is_ok (load_gray fdot facedb image_open id) = true.
Proof.
  intros Hdf Hop Hb Hn. unfold load_gray. rewrite Hdf. cbn [bind].
  rewrite Hop. cbn [bind]. unfold np_array_getdata. rewrite Hb.
  change (3 =? 1) with false. cbn [orb].
  destruct (Nat.eqb_spec (List.length (im_getdata im)) 0) as [E|_];
    [rewrite Hn in E; discriminate E|].
  unfold np_dot. cbn [shape data rev app].
  change (3 =? List.length rgb_weights) with true. cbv iota.
  cbn [bind]. unfold reshape, size. cbn [shape data prod_shape fold_right].
  rewrite Hn, !Nat.mul_1_r, Nat.eqb_refl. cbn [bind].
  now rewrite (slice2_sliced downsample 256 256).
Qed.

Lemma mapM_app_error {X Y : Type} (f : X -> result Y) (pre post : list X)
  (x : X) (e : pyerr) :
  (forall y, In y pre -> is_ok (f y) = true) ->
  f x = Raise e ->
  mapM f (pre ++ x :: post) = Raise e.
Proof.
  intros Hpre Hx. induction pre as [|y pre IH]; cbn [app mapM].
  - now rewrite Hx.
  - pose proof (Hpre y (or_introl eq_refl)) as Hy.
    destruct (f y) as [v|e']; [|discriminate Hy]. cbn [bind].
    rewrite IH; [reflexivity|]. intros z Hz. apply Hpre. now right.
Qed.

Lemma mapM_Forall2_ok {X Y : Type} (f : X -> result Y) (l : list X) (ys : list Y) :
  Forall2 (fun x y => f x = Ok y) l ys -> mapM f l = Ok ys.
Proof.
  induction 1 as [|x y l ys Hx _ IH]; [reflexivity|].
  cbn [mapM]. rewrite Hx. cbn [bind]. now rewrite IH.
Qed.

(** The stack of a non-empty sequence of valid identifiers, written out *)
Lemma get_pixel_data_valid (ids : list Z) (ims : list Image) :
  Forall2 (valid_id facedb image_open) ids ims -> ids <> [] ->
  get_pixel_data fdot facedb image_open ids =
  Ok {| shape := [List.length ids; 52; 52];
        data := List.concat (map (grid_data fdot) ims) |}.
Proof.
  intros Hv Hne. unfold get_pixel_data.
  rewrite (mapM_Forall2_ok _ ids
             (map (fun im => sliced 5 256 256 (gray_image_of fdot im)) ims)).
  - cbn [bind]. pose proof (Forall2_length Hv) as Hlen.
    destruct ims as [|im0 ims]; [destruct ids; [congruence | discriminate Hlen]|].
    unfold np_array_stack. cbn [map].
    assert (forallb
              (fun b : ndarray float =>
                 shape_eqb (shape b)
                           (shape (sliced 5 256 256 (gray_image_of fdot im0))))
              (sliced 5 256 256 (gray_image_of fdot im0)
               :: map (fun im => sliced 5 256 256 (gray_image_of fdot im)) ims)
            = true) as ->.
    { apply forallb_forall. intros b Hb.
      assert (shape b = shape (sliced 5 256 256 (gray_image_of fdot im0))) as ->.
      { destruct Hb as [<-|Hb]; [reflexivity|].
        apply in_map_iff in Hb as (im & <- & _). reflexivity. }
      unfold shape_eqb. now destruct (list_eq_dec Nat.eq_dec _ _). }
    f_equal. f_equal.
    + cbn [List.length]. rewrite length_map, Hlen. reflexivity.
    + unfold grid_data. cbn [map]. now rewrite map_map.
  - clear Hne. induction Hv as [|id im ids ims Hid _ IH]; cbn [map];
      constructor; [now apply load_gray_valid | exact IH].
Qed.

End LoaderFacts.

(** X8.  For a row whose file opens, the loop body of [get_pixel_data]
    returns a grid exactly when the decoded image has three bands and
    256 * 256 pixels; in every other case it raises [ValueError]. *)
Theorem load_gray_ok_iff
  (float : Type) (fdot : list Z -> list Q -> float)
  (facedb : Pandas.DataFrame) (image_open : str -> result Image)
  (id : Z) (path : str) (im : Image) :
  df_at facedb "fullpath" id = Ok (Pandas.Str path) ->
  image_open path = Ok im ->
  (is_ok (load_gray fdot facedb image_open id) = true <->
   im_bands im = 3 /\ List.length (im_getdata im) = 256 * 256) /\
  (is_ok (load_gray fdot facedb image_open id) = false ->
   load_gray fdot facedb image_open id = Raise ValueError).
Proof.
  intros Hdf Hop.
  destruct (Nat.eq_dec (im_bands im) 3) as [Hb|Hb].
  - destruct (Nat.eq_dec (List.length (im_getdata im)) (256 * 256)) as [Hn|Hn].
    + pose proof (load_gray_right_shape fdot facedb image_open id path im
                    Hdf Hop Hb Hn) as Hok.
      split; [tauto | congruence].
    + pose proof (load_gray_wrong_size fdot facedb image_open id path im
                    Hdf Hop Hn) as He.
      rewrite He. split; [|reflexivity]. split; [discriminate | tauto].
  - pose proof (load_gray_wrong_bands fdot facedb image_open id path im
                  Hdf Hop Hb) as He.
    rewrite He. split; [|reflexivity]. split; [discriminate | tauto].
Qed.

Lemma load_gray_ok_iff_witness :
  df_at sample_facedb "fullpath" 2 =
    Ok (Pandas.Str (lit "/srv/data/generated.photos/d_0000003_e.jpg")) /\
  sample_open (lit "/srv/data/generated.photos/d_0000003_e.jpg") = Ok tiny_image /\
  (is_ok (load_gray exact_dot sample_facedb sample_open 2) = true <->
   im_bands tiny_image = 3 /\ List.length (im_getdata tiny_image) = 256 * 256) /\
  (is_ok (load_gray exact_dot sample_facedb sample_open 2) = false ->
   load_gray exact_dot sample_facedb sample_open 2 = Raise ValueError).
Proof.
  split; [reflexivity|]. split; [reflexivity|].
  apply (load_gray_ok_iff Q exact_dot sample_facedb sample_open 2
           (lit "/srv/data/generated.photos/d_0000003_e.jpg") tiny_image);
    reflexivity.
Defined.

(** X9.  [get_pixel_data] stops at the first identifier whose image fails
    to load and raises its exception, whatever the identifiers after
    it. *)
Theorem get_pixel_data_first_failure
  (float : Type) (fdot : list Z -> list Q -> float)
  (facedb : Pandas.DataFrame) (image_open : str -> result Image)
  (before after : list Z) (id : Z) (e : pyerr) :
  (forall id', In id' before ->
               is_ok (load_gray fdot facedb image_open id') = true) ->
  load_gray fdot facedb image_open id = Raise e ->
  get_pixel_data fdot facedb image_open (before ++ id :: after) = Raise e.
Proof.
  intros Hb He. unfold get_pixel_data.
  now rewrite (mapM_app_error (load_gray fdot facedb image_open) before after id e).
Qed.

Lemma get_pixel_data_first_failure_witness :
  load_gray exact_dot sample_facedb sample_open 7 = Raise KeyError /\
  get_pixel_data exact_dot sample_facedb sample_open ([0; 1] ++ 7 :: [2; 0])%Z =
    Raise KeyError.
Proof.
  split; [reflexivity|].
  apply (get_pixel_data_first_failure Q exact_dot sample_facedb sample_open
           [0; 1]%Z [2; 0]%Z 7%Z KeyError).
  - intros id' [<-|[<-|[]]].
    + now rewrite (load_gray_valid exact_dot sample_facedb sample_open 0
                     sample_image sample_image_valid_0).
    + now rewrite (load_gray_valid exact_dot sample_facedb sample_open 1
                     wide_image wide_image_valid_1).
  - reflexivity.
Defined.

(** ** The cells that load and flatten the images *)

Lemma grid_data_length {float : Type} (fdot : list Z -> list Q -> float)
  (im : Image) :
  List.length (im_getdata im) = 256 * 256 ->
  List.length (grid_data fdot im) = 52 * 52.
Proof.
  intros Hn.
  assert (array_wf (sliced 5 256 256 (gray_image_of fdot im))) as Hw.
  { apply sliced_wf; [lia|]. unfold gray_image_of. cbn [data].
    now rewrite length_map. }
  unfold array_wf, size in Hw.
  change (shape (sliced 5 256 256 (gray_image_of fdot im))) with [52; 52] in Hw.
  unfold grid_data. rewrite Hw. reflexivity.
Qed.

Section LoadImagesFacts.

Context {float : Type}.
Variable fdot : list Z -> list Q -> float.
Variable facedb : Pandas.DataFrame.
Variable image_open : str -> result Image.

Lemma py_range_length (n : nat) : List.length (py_range n) = n.
Proof. unfold py_range. now rewrite length_map, length_seq. Qed.

Lemma py_range_split (m n : nat) :
  m < n ->
  exists rest, py_range n = py_range m ++ Z.of_nat m :: rest.
Proof.
  intros H. unfold py_range.
  replace n with (m + S (n - m - 1)) by lia.
  rewrite seq_app, map_app. cbn [seq map Nat.add].
  now exists (map Z.of_nat (seq (S m) (n - m - 1))).
Qed.

Lemma py_range_in (n : nat) (id : Z) : In id (py_range n) <-> in_range n id.
Proof.
  unfold py_range, in_range. rewrite in_map_iff. split.
  - intros (k & <- & Hk). apply in_seq in Hk. lia.
  - intros H. exists (Z.to_nat id). split; [lia|]. apply in_seq. lia.
Qed.

Lemma load_images_valid (n : nat) (ims : list Image) :
  Forall2 (valid_id facedb image_open) (py_range n) ims -> 1 <= n ->
  load_images fdot facedb image_open n =
  Ok ({| shape := [n; 52; 52]; data := List.concat (map (grid_data fdot) ims) |},
      [52; 52],
      {| shape := [n; 52 * 52]; data := List.concat (map (grid_data fdot) ims) |}).
Proof.
  intros Hv Hn. unfold load_images.
  assert (py_range n <> []) as Hne.
  { intros E. apply (f_equal (@List.length Z)) in E.
    rewrite py_range_length in E. cbn in E. lia. }
  pose proof (get_pixel_data_valid fdot facedb image_open (py_range n) ims Hv Hne)
    as Hg.
  rewrite Hg. cbn [bind]. rewrite py_range_length.
  match goal with
  | |- context [reshape_rows ?a n] =>
      rewrite (reshape_rows_stack a n [52; 52] eq_refl Hn)
  end.
  cbn [bind tl shape data]. change (prod_shape [52; 52]) with (52 * 52).
  reflexivity.
Qed.

Lemma grids_uniform (ids : list Z) (ims : list Image) :
  Forall2 (valid_id facedb image_open) ids ims ->
  Forall (fun d => List.length d = 52 * 52) (map (grid_data fdot) ims).
Proof.
  induction 1 as [|id im ids ims (path & _ & _ & _ & _ & Hn) _ IH]; cbn [map];
    constructor; [now apply grid_data_length | exact IH].
Qed.

End LoadImagesFacts.

(** X10.  When every identifier of [range(n)], for [n >= 1], names a
    catalog row with a three-band image of 256 * 256 pixels, the loading
    cells give an [image_list] of shape [(n, 52, 52)], the
    [image_shape] [(52, 52)] and an [image_flattened] of shape
    [(n, 2704)] over the same buffer. *)
Theorem load_images_shapes
  (float : Type) (fdot : list Z -> list Q -> float)
  (facedb : Pandas.DataFrame) (image_open : str -> result Image)
  (n : nat) (ims : list Image) :
  Forall2 (valid_id facedb image_open) (py_range n) ims -> 1 <= n ->
  exists image_list image_flattened,
    load_images fdot facedb image_open n =
      Ok (image_list, [52; 52], image_flattened) /\
    shape image_list = [n; 52; 52] /\
    shape image_flattened = [n; 2704] /\
    array_wf image_list /\
    array_wf image_flattened /\
    data image_flattened = data image_list.
Proof.
  intros Hv Hn.
  pose proof (load_images_valid fdot facedb image_open n ims Hv Hn) as H.
  pose proof (grids_uniform fdot facedb image_open _ _ Hv) as Hu.
  pose proof (Forall2_length Hv) as Hlen. rewrite py_range_length in Hlen.
  do 2 eexists. split; [exact H|].
  split; [reflexivity|]. split; [reflexivity|].
  assert (List.length (List.concat (map (grid_data fdot) ims)) = n * (52 * 52))
    as Hd.
  { rewrite (concat_uniform_length (52 * 52)) by exact Hu.
    now rewrite length_map, <- Hlen. }
  split; [|split; [|reflexivity]]; unfold array_wf, size;
    cbn [shape data prod_shape fold_right]; rewrite Hd; lia.
Qed.


(** X12.  The loading cells fail when the catalog is too short or
    [num_images] is zero: with fewer rows than [n], all of them
    loadable, looking up row number [rows] raises [KeyError]; with
    [n = 0] the stack is empty and [reshape(0, -1)] raises
    [ValueError]. *)
Theorem load_images_errors
  (float : Type) (fdot : list Z -> list Q -> float)
  (facedb : Pandas.DataFrame) (image_open : str -> result Image) :
  load_images fdot facedb image_open 0 = Raise ValueError /\
  forall (n rows : nat) (fullpath : Pandas.Series),
    Pandas.getitem facedb "fullpath" = Ok fullpath ->
    List.length (Pandas.s_values fullpath) = rows ->
    rows < n ->
    (forall id, in_range rows id ->
                is_ok (load_gray fdot facedb image_open id) = true) ->
    load_images fdot facedb image_open n = Raise KeyError.
Proof.
  split; [reflexivity|].
  intros n rows fullpath Hcol Hrows Hlt Hok.
  destruct (py_range_split rows n Hlt) as [rest Hsplit].
  unfold load_images, get_pixel_data. rewrite Hsplit.
  rewrite (mapM_app_error (load_gray fdot facedb image_open) (py_range rows) rest
             (Z.of_nat rows) KeyError); [reflexivity | |].
  - intros id Hid. apply Hok. now apply py_range_in.
  - unfold load_gray, df_at. rewrite Hcol. cbn [bind].
    unfold series_getitem. rewrite Hrows.
    destruct (Z.ltb_spec (Z.of_nat rows) (Z.of_nat rows)); [lia|].
    now rewrite andb_false_r.
Qed.

Lemma sample_range_valid :
  Forall2 (valid_id sample_facedb sample_open) (py_range 2)
          [sample_image; wide_image].
Proof.
  change (py_range 2) with [0; 1]%Z.
  constructor; [exact sample_image_valid_0|].
  constructor; [exact wide_image_valid_1 | constructor].
Qed.

Lemma load_images_shapes_witness :
  Forall2 (valid_id sample_facedb sample_open) (py_range 2)
          [sample_image; wide_image] /\
  exists image_list image_flattened,
    load_images exact_dot sample_facedb sample_open 2 =
      Ok (image_list, [52; 52], image_flattened) /\
    shape image_list = [2; 52; 52] /\
    shape image_flattened = [2; 2704] /\
    array_wf image_list /\
    array_wf image_flattened /\
    data image_flattened = data image_list.
Proof.
  split; [exact sample_range_valid|].
  apply (load_images_shapes Q exact_dot sample_facedb sample_open 2
           [sample_image; wide_image] sample_range_valid).
  lia.
Defined.


Lemma two_facedb_loads (id : Z) :
  in_range 2 id ->
  is_ok (load_gray exact_dot two_facedb sample_open id) = true.
Proof.
  intros Hr.
  assert (id = 0 \/ id = 1)%Z as [-> | ->] by (unfold in_range in Hr; lia).
  - apply (load_gray_right_shape exact_dot two_facedb sample_open 0
             (lit "/srv/data/generated.photos/a_0000001_b.jpg") sample_image);
      [reflexivity | reflexivity | reflexivity |].
    cbn [sample_image im_getdata]. apply repeat_length.
  - apply (load_gray_right_shape exact_dot two_facedb sample_open 1
             (lit "/srv/data/generated.photos/c_0000002.jpg") wide_image);
      [reflexivity | reflexivity | reflexivity |].
    cbn [wide_image im_getdata]. apply repeat_length.
Qed.

Lemma load_images_errors_witness :
  Pandas.getitem two_facedb "fullpath" =
    Ok (Pandas.object_series
          [Pandas.Str (lit "/srv/data/generated.photos/a_0000001_b.jpg");
           Pandas.Str (lit "/srv/data/generated.photos/c_0000002.jpg")]) /\
  2 < num_images /\
  load_images exact_dot two_facedb sample_open 0 = Raise ValueError /\
  load_images exact_dot two_facedb sample_open num_images = Raise KeyError.
Proof.
  assert (2 < num_images) as Hlt by (unfold num_images; lia).
  split; [reflexivity|]. split; [exact Hlt|].
  destruct (load_images_errors Q exact_dot two_facedb sample_open) as [H0 Hn].
  split; [exact H0|].
  apply (Hn num_images 2 _ eq_refl eq_refl Hlt two_facedb_loads).
Defined.

(** ** More about the metadata reader *)

(** X13.  On a catalog that [create_facedb] returned, [read_metadata]
    raises [KeyError] for a label outside [0 .. n-1]; for a label inside
    it opens the metadata path derived from the path of that row, and the
    exception of a failing [open] or of a failing [json.load] is what the
    call raises, in whatever namespace. *)
Theorem read_metadata_catalog
  (nd : char -> bool)
  (fs : FileSystem) (dt : Pandas.dtype) (dir : str) (db : Pandas.DataFrame)
  (open_file : str -> result str) (json_load : str -> result json)
  (pformat : json -> str) (namespace : list string) (id : Z) :
  create_facedb nd fs dt dir = Ok db ->
  let paths := Glob.glob fs (dir ++ lit "/*.jpg") in
  let jsonfile := PyStr.replace (lit ".jpg") (lit ".json")
                    (PyStr.replace segment_photos segment_metadata
                       (nth (Z.to_nat id) paths [])) in
  (~ in_range (List.length paths) id ->
   read_metadata open_file json_load pformat namespace db id = Raise KeyError) /\
  (in_range (List.length paths) id ->
   (forall e, open_file jsonfile = Raise e ->
      read_metadata open_file json_load pformat namespace db id = Raise e) /\
   (forall f e, open_file jsonfile = Ok f -> json_load f = Raise e ->
      read_metadata open_file json_load pformat namespace db id = Raise e)).
Proof.
  intros H paths jsonfile.
  destruct (create_facedb_inv nd fs dt dir db H) as [_ ->]. fold paths.
  destruct (catalog_jsonfile nd paths id) as [Hin Hout].
  split.
  - intros Hr. unfold read_metadata. now rewrite (Hout Hr).
  - intros Hr. unfold read_metadata. rewrite (Hin Hr). cbn [bind].
    fold jsonfile. split.
    + intros e He. now rewrite He.
    + intros f e Hf He. rewrite Hf. cbn [bind]. now rewrite He.
Qed.

Lemma read_metadata_catalog_witness :
  create_facedb sample_decimal fs_three Pandas.Float64Dtype
    (lit "/srv/data/generated.photos") =
    Ok sample_facedb /\
  let paths := Glob.glob fs_three (lit "/srv/data/generated.photos" ++ lit "/*.jpg") in
  let jsonfile := PyStr.replace (lit ".jpg") (lit ".json")
                    (PyStr.replace segment_photos segment_metadata
                       (nth (Z.to_nat 5) paths [])) in
  (~ in_range (List.length paths) 5 ->
   read_metadata sample_open_file sample_json_load sample_pformat
     notebook_namespace sample_facedb 5 = Raise KeyError) /\
  (in_range (List.length paths) 5 ->
   (forall e, sample_open_file jsonfile = Raise e ->
      read_metadata sample_open_file sample_json_load sample_pformat
        notebook_namespace sample_facedb 5 = Raise e) /\
   (forall f e, sample_open_file jsonfile = Ok f -> sample_json_load f = Raise e ->
      read_metadata sample_open_file sample_json_load sample_pformat
        notebook_namespace sample_facedb 5 = Raise e)).
Proof.
  split; [exact create_facedb_sample|].
  exact (read_metadata_catalog sample_decimal fs_three Pandas.Float64Dtype
           (lit "/srv/data/generated.photos") sample_facedb
           sample_open_file sample_json_load sample_pformat notebook_namespace 5
           create_facedb_sample).
Defined.
